(** * Bill splitter (src/App.tsx): a shallow embedding of the ledger logic

    The component keeps five pieces of React state (participants,
    transactions, the text of the participant form, the draft transaction
    and the id of the transaction being edited).  Every handler of the
    component is a closure over the values of one render; it queues state
    updates, some of them functional ([prev => ...]).  The embedding keeps
    both ingredients apart: the render snapshot a handler closes over, and
    the pending value an updater receives.

    JavaScript values are modelled as follows.
    - a [string] is a Rocq [string], read as UTF-8 (lone surrogates have no
      counterpart);
    - a [number] is an IEEE-754 binary64 value, [spec_float] of the standard
      library at precision 53 and exponent bound 1024;
    - an object used as a dictionary is an association list in the order in
      which [Object.keys] enumerates it;
    - [Date.now()] is an argument of the handlers that read the clock. *)

From Stdlib Require Import ZArith NArith List String Ascii Bool Lia.
From Stdlib Require Import SpecFloat DecimalString DecimalZ DecimalN.
From Stdlib Require Import Permutation.
Import ListNotations.

Local Open Scope string_scope.
Local Open Scope list_scope.
Local Open Scope Z_scope.

(** ** Strings *)

Module JsString.

(** The code points that [String.prototype.trim] and [parseFloat] skip
    (ECMAScript WhiteSpace and LineTerminator), as UTF-8 byte sequences:
    TAB, LF, VT, FF, CR, SP, U+00A0, U+1680, U+2000..U+200A, U+2028,
    U+2029, U+202F, U+205F, U+3000, U+FEFF. *)
Definition bytes (l : list nat) : string :=
  string_of_list_ascii (map ascii_of_nat l).

Definition white_space : list string :=
  map bytes
    [ [9]; [10]; [11]; [12]; [13]; [32]; [194; 160]; [225; 154; 128];
      [226; 128; 128]; [226; 128; 129]; [226; 128; 130]; [226; 128; 131];
      [226; 128; 132]; [226; 128; 133]; [226; 128; 134]; [226; 128; 135];
      [226; 128; 136]; [226; 128; 137]; [226; 128; 138]; [226; 128; 168];
      [226; 128; 169]; [226; 128; 175]; [226; 129; 159]; [227; 128; 128];
      [239; 187; 191] ]%nat.

(** [strip_prefix p s] is the rest of [s] after its prefix [p]. *)
Fixpoint strip_prefix (p s : string) : option string :=
  match p, s with
  | EmptyString, _ => Some s
  | String a p', String b s' =>
      if Ascii.eqb a b then strip_prefix p' s' else None
  | String _ _, EmptyString => None
  end.

Fixpoint strip_any (ps : list string) (s : string) : option string :=
  match ps with
  | [] => None
  | p :: ps' =>
      match strip_prefix p s with
      | Some r => Some r
      | None => strip_any ps' s
      end
  end.

Fixpoint strip_all (ps : list string) (fuel : nat) (s : string) : string :=
  match fuel with
  | O => s
  | S fuel' =>
      match strip_any ps s with
      | Some r => strip_all ps fuel' r
      | None => s
      end
  end.

Definition rev_string (s : string) : string :=
  string_of_list_ascii (rev (list_ascii_of_string s)).

Definition trimStart (s : string) : string :=
  strip_all white_space (String.length s) s.

Definition trimEnd (s : string) : string :=
  rev_string
    (strip_all (map rev_string white_space) (String.length s) (rev_string s)).

(** [String.prototype.trim] *)
Definition trim (s : string) : string := trimEnd (trimStart s).

(** [s ? a : b] and [if (s)] on a string: the empty string is falsy. *)
Definition truthy (s : string) : bool := negb (String.eqb s "").

Definition is_digit (c : ascii) : bool :=
  ((48 <=? nat_of_ascii c) && (nat_of_ascii c <=? 57))%nat.

Definition digit_value (c : ascii) : Z := Z.of_nat (nat_of_ascii c) - 48.

(** The longest prefix of decimal digits, and what follows it. *)
Fixpoint span_digits (s : string) : string * string :=
  match s with
  | String c r =>
      if is_digit c
      then let '(d, t) := span_digits r in (String c d, t)
      else (EmptyString, s)
  | EmptyString => (EmptyString, EmptyString)
  end.

(** The value of a string of decimal digits, most significant first. *)
Fixpoint digits_value_from (acc : Z) (s : string) : Z :=
  match s with
  | String c r => digits_value_from (10 * acc + digit_value c) r
  | EmptyString => acc
  end.

Definition digits_value (s : string) : Z := digits_value_from 0 s.

(** Decimal numeral of an integer, as [Number.prototype.toString] prints
    an integer below 10^21: no leading zero, ["-"] for a negative one. *)
Definition of_Z (z : Z) : string := NilZero.string_of_int (Z.to_int z).

End JsString.


(** ** Numbers *)

Module JsNumber.

(** A JavaScript number: IEEE-754 binary64. *)
Definition number : Type := spec_float.

Definition prec : Z := 53.
Definition emax : Z := 1024.

Definition NaN : number := S754_nan.
Definition zero : number := S754_zero false.

Definition add : number -> number -> number := SFadd prec emax.
Definition sub : number -> number -> number := SFsub prec emax.
Definition div : number -> number -> number := SFdiv prec emax.

(** [a < b]; [a > b] is [lt b a]; [a == b] on numbers. *)
Definition lt (a b : number) : bool := SFltb a b.
Definition gt (a b : number) : bool := SFltb b a.
Definition eq (a b : number) : bool := SFeqb a b.

(** The global [isNaN] on a number. *)
Definition isNaN (x : number) : bool :=
  match x with S754_nan => true | _ => false end.

(** [x || 0] on a number: NaN, +0 and -0 are falsy. *)
Definition or_zero (x : number) : number :=
  match x with
  | S754_nan | S754_zero _ => zero
  | _ => x
  end.

(** The number nearest to an integer (ties to even), as for an array
    length or a numeric literal. *)
Definition of_Z (z : Z) : number := binary_normalize prec emax z 0 false.

(** The number nearest to [m * 10^e10], sign [neg], for [0 <= m]: the
    rounding of a decimal literal (ECMAScript RoundMVResult). *)
Definition of_decimal (neg : bool) (m e10 : Z) : number :=
  match m with
  | Zpos p =>
      if 0 <=? e10
      then binary_normalize prec emax
             (cond_Zopp neg (Zpos p * 10 ^ e10)) 0 false
      else match 10 ^ (- e10) with
           | Zpos q => div (S754_finite neg p 0) (S754_finite false q 0)
           | _ => NaN
           end
  | _ => S754_zero neg
  end.

(** ExponentPart of StrDecimalLiteral: [e] or [E], an optional sign and at
    least one digit; anything else contributes nothing. *)
Definition exponent_part (s : string) : Z :=
  match s with
  | String c r =>
      if Ascii.eqb c "e" || Ascii.eqb c "E" then
        let '(neg, r') :=
          match r with
          | String "+" t => (false, t)
          | String "-" t => (true, t)
          | _ => (false, r)
          end in
        let '(ds, _) := JsString.span_digits r' in
        match ds with
        | EmptyString => 0
        | _ => cond_Zopp neg (JsString.digits_value ds)
        end
      else 0
  | EmptyString => 0
  end.

(** StrUnsignedDecimalLiteral, longest prefix. *)
Definition unsigned_literal (neg : bool) (s : string) : number :=
  match JsString.strip_prefix "Infinity" s with
  | Some _ => S754_infinity neg
  | None =>
      let '(ip, r) := JsString.span_digits s in
      let '(fp, r') :=
        match r with
        | String "." t => JsString.span_digits t
        | _ => (EmptyString, r)
        end in
      match (ip ++ fp)%string with
      | EmptyString => NaN
      | ds =>
          of_decimal neg (JsString.digits_value ds)
            (exponent_part r' - Z.of_nat (String.length fp))
      end
  end.

(** The global [parseFloat] on a string. *)
Definition parseFloat (s : string) : number :=
  match JsString.trimStart s with
  | String "+" r => unsigned_literal false r
  | String "-" r => unsigned_literal true r
  | t => unsigned_literal false t
  end.

(** Number::toString for a finite number [x >= 10^21], given as the
    integer [X] it denotes: the shortest decimal [s * 10^(n-k)] with [k]
    digits that rounds to [x], printed in exponent notation. *)
Definition same (a b : number) : bool :=
  match a, b with
  | S754_finite s1 m1 e1, S754_finite s2 m2 e2 =>
      Bool.eqb s1 s2 && Pos.eqb m1 m2 && Z.eqb e1 e2
  | _, _ => false
  end.

Definition digits_of (X : Z) : Z := Z.of_nat (String.length (JsString.of_Z X)).

Definition candidate (x : number) (X k n s : Z) : list (Z * Z * Z) :=
  if (10 ^ (k - 1) <=? s) && (s <? 10 ^ k) && same (of_Z (s * 10 ^ (n - k))) x
  then [(Z.abs (s * 10 ^ (n - k) - X), s, n)] else [].

Definition candidates (x : number) (X k : Z) : list (Z * Z * Z) :=
  let nd := digits_of X in
  candidate x X k nd (X / 10 ^ (nd - k))
  ++ candidate x X k nd (X / 10 ^ (nd - k) + 1)
  ++ candidate x X k (nd + 1) (X / 10 ^ (nd + 1 - k))
  ++ candidate x X k (nd + 1) (X / 10 ^ (nd + 1 - k) + 1).

Definition closest (l : list (Z * Z * Z)) : option (Z * Z * Z) :=
  fold_left
    (fun best c =>
       match best with
       | None => Some c
       | Some b => if fst (fst c) <? fst (fst b) then Some c else best
       end) l None.

Fixpoint shortest (fuel : nat) (x : number) (X k : Z) : Z * Z * Z :=
  match fuel with
  | O => (k, X, digits_of X)
  | S fuel' =>
      match closest (candidates x X k) with
      | Some (_, s, n) => (k, s, n)
      | None => shortest fuel' x X (k + 1)
      end
  end.

Definition exponential (x : number) (X : Z) : string :=
  let '(k, s, n) := shortest (Z.to_nat (digits_of X)) x X 1 in
  match JsString.of_Z s with
  | String d ds =>
      (String d (match ds with EmptyString => "" | _ => String "." ds end)
       ++ "e+" ++ JsString.of_Z (n - 1))%string
  | EmptyString => EmptyString
  end.

(** [n] printed with two decimals: the digits of [n], padded on the left
    with zeros to three digits, a point before the last two. *)
Definition two_decimals (n : Z) : string :=
  let ds := JsString.of_Z n in
  let ds := match String.length ds with
            | 1%nat => ("00" ++ ds)%string
            | 2%nat => ("0" ++ ds)%string
            | _ => ds
            end in
  let k := String.length ds in
  (substring 0 (k - 2) ds ++ "." ++ substring (k - 2) 2 ds)%string.

(** [Number.prototype.toFixed(2)].  For [|x| < 10^21] the integer [n] for
    which [n / 100 - |x|] is closest to zero, the larger one on a tie. *)
Definition toFixed2 (x : number) : string :=
  match x with
  | S754_nan => "NaN"
  | S754_infinity false => "Infinity"
  | S754_infinity true => "-Infinity"
  | S754_zero _ => "0.00"
  | S754_finite neg m e =>
      let sign := if neg then "-" else "" in
      let big := if 0 <=? e then 10 ^ 21 <=? Zpos m * 2 ^ e
                 else 10 ^ 21 * 2 ^ (- e) <=? Zpos m in
      if big
      then (sign ++ exponential (S754_finite false m e) (Z.shiftl (Zpos m) e))%string
      else
        let n := if 0 <=? e then Zpos m * 2 ^ e * 100
                 else (Zpos m * 200 + 2 ^ (- e)) / 2 ^ (- e + 1) in
        (sign ++ two_decimals n)%string
  end.

End JsNumber.

(** ** Objects used as dictionaries *)

Module JsObject.

(** The own properties of an object with string keys, in the order of
    [Object.keys]: array indices (canonical numerals below 2^32 - 1) in
    ascending order first, then the other keys in the order of their
    creation.  Object literals with computed keys, spread, rest
    destructuring and [Object.fromEntries] define own properties whatever
    the key, so the operations below are those of the source for every
    key. *)
Definition t (V : Type) : Type := list (string * V).

(** The string keys of [Object.prototype].  A read [o[k]] of a key that [o]
    does not own sees the inherited property for these names (a function,
    or the prototype itself behind the accessor [__proto__]), and an
    assignment [o[k] = v] to such a key goes through the setter for
    [__proto__].  [get] and [set] below are the own-property operations:
    they are [o[k]] and [o[k] = v] whenever [o] owns [k] or [k] is none of
    these names. *)
Definition prototype_names : list string :=
  [ "constructor"; "hasOwnProperty"; "isPrototypeOf"; "propertyIsEnumerable";
    "toLocaleString"; "toString"; "valueOf"; "__proto__";
    "__defineGetter__"; "__defineSetter__"; "__lookupGetter__";
    "__lookupSetter__" ].

Definition array_index (k : string) : option Z :=
  let '(ds, r) := JsString.span_digits k in
  let n := JsString.digits_value k in
  match r with
  | EmptyString =>
      if String.eqb (JsString.of_Z n) k && (n <=? 4294967294)
      then Some n else None
  | _ => None
  end.

Section Operations.
Context {V : Type}.

Definition keys (o : t V) : list string := map fst o.

(** [Object.values] *)
Definition values (o : t V) : list V := map snd o.

(** [Object.entries] *)
Definition entries (o : t V) : list (string * V) := o.

(** [o[k]], [None] standing for [undefined]. *)
Fixpoint get (k : string) (o : t V) : option V :=
  match o with
  | [] => None
  | (k', v) :: o' => if String.eqb k k' then Some v else get k o'
  end.

Definition has (k : string) (o : t V) : bool :=
  match get k o with Some _ => true | None => false end.

(** Assignment to an existing property keeps its place. *)
Fixpoint replace (k : string) (v : V) (o : t V) : t V :=
  match o with
  | [] => []
  | (k', v') :: o' =>
      if String.eqb k k' then (k', v) :: o' else (k', v') :: replace k v o'
  end.

(** A new array index [n] goes before the first key that is a larger
    index or no index at all. *)
Fixpoint insert_index (n : Z) (k : string) (v : V) (o : t V) : t V :=
  match o with
  | [] => [(k, v)]
  | (k', v') :: o' =>
      match array_index k' with
      | Some n' =>
          if n <? n' then (k, v) :: o
          else (k', v') :: insert_index n k v o'
      | None => (k, v) :: o
      end
  end.

(** [o[k] = v] *)
Definition set (k : string) (v : V) (o : t V) : t V :=
  if has k o then replace k v o
  else match array_index k with
       | Some n => insert_index n k v o
       | None => o ++ [(k, v)]
       end.

(** [const { [k]: _, ...rest } = o] *)
Definition remove (k : string) (o : t V) : t V :=
  filter (fun kv => negb (String.eqb k (fst kv))) o.

(** [Object.fromEntries]: one assignment per entry, in order. *)
Definition assign (o : t V) (kv : string * V) : t V :=
  set (fst kv) (snd kv) o.

Definition fromEntries (l : list (string * V)) : t V :=
  fold_left assign l [].

End Operations.

End JsObject.

(** ** The data model (lines 11-23) *)

Module Participant.
Record t : Type := mk { id : string; name : string }.
End Participant.

Module Transaction.
Record t : Type := mk {
  id : string;
  title : string;
  amount : string;
  payer : string;
  contributions : JsObject.t string;
  isSplitBill : bool
}.

Definition with_id (i : string) (x : t) : t :=
  mk i (title x) (amount x) (payer x) (contributions x) (isSplitBill x).

Definition with_contributions (c : JsObject.t string) (x : t) : t :=
  mk (id x) (title x) (amount x) (payer x) c (isSplitBill x).

Definition with_isSplitBill (b : bool) (x : t) : t :=
  mk (id x) (title x) (amount x) (payer x) (contributions x) b.
End Transaction.

(** The state of the component (lines 32-46).  [D] is the type of the draft:
    [Transaction.t] as declared, [option Transaction.t] where
    [Array.prototype.find] may have stored [undefined] in it. *)
Record State_ (D : Type) : Type := mkState {
  participants : list Participant.t;
  transactions : list Transaction.t;
  newParticipant : string;
  currentTransaction : D;
  editingTransactionId : option string
}.

Arguments mkState {D}.
Arguments participants {D}.
Arguments transactions {D}.
Arguments newParticipant {D}.
Arguments currentTransaction {D}.
Arguments editingTransactionId {D}.

Definition State : Type := State_ Transaction.t.

(** A handler closes over the values of the render that created it and maps
    the pending state to the next one. *)
Definition Handler (D : Type) : Type := State -> State -> State_ D.

(** A user event on a rendered component: the render and the pending state
    coincide. *)
Definition dispatch {D : Type} (h : Handler D) (s : State) : State_ D := h s s.

Definition setCurrentTransaction {D E : Type} (d : E) (s : State_ D) : State_ E :=
  mkState (participants s) (transactions s) (newParticipant s) d
    (editingTransactionId s).

Definition setParticipants {D : Type} (ps : list Participant.t) (s : State_ D)
  : State_ D :=
  mkState ps (transactions s) (newParticipant s) (currentTransaction s)
    (editingTransactionId s).

Definition setTransactions {D : Type} (ts : list Transaction.t) (s : State_ D)
  : State_ D :=
  mkState (participants s) ts (newParticipant s) (currentTransaction s)
    (editingTransactionId s).

Definition setNewParticipant {D : Type} (n : string) (s : State_ D) : State_ D :=
  mkState (participants s) (transactions s) n (currentTransaction s)
    (editingTransactionId s).

Definition setEditingTransactionId {D : Type} (e : option string) (s : State_ D)
  : State_ D :=
  mkState (participants s) (transactions s) (newParticipant s)
    (currentTransaction s) e.

(** ** The handlers *)

(** [(parseFloat(amount) / count).toFixed(2)] *)
Definition splitAmount (amount : string) (count : Z) : string :=
  JsNumber.toFixed2 (JsNumber.div (JsNumber.parseFloat amount) (JsNumber.of_Z count)).

(** lines 81-86; [ps] is the [participants] of the enclosing render. *)
Definition recalculateSplitBill (ps : list Participant.t) (amount : string)
  : JsObject.t string :=
  let participantCount := List.length ps in
  match participantCount with
  | O => []
  | _ =>
      JsObject.fromEntries
        (map (fun p =>
                (Participant.id p, splitAmount amount (Z.of_nat participantCount)))
           ps)
  end.

(** lines 48-62; [now] is the value of [Date.now()]. *)
Definition addParticipant (now : Z) : Handler Transaction.t := fun render s =>
  if JsString.truthy (JsString.trim (newParticipant render)) then
    let newParticipantObj :=
      Participant.mk (JsString.of_Z now) (JsString.trim (newParticipant render)) in
    let s1 := setParticipants (participants s ++ [newParticipantObj]) s in
    let s2 := setNewParticipant "" s1 in
    let prev := currentTransaction s2 in
    setCurrentTransaction
      (Transaction.with_contributions
         (JsObject.set (Participant.id newParticipantObj)
            (if Transaction.isSplitBill prev
             then splitAmount (Transaction.amount prev)
                    (Z.of_nat (List.length (participants render)) + 1)
             else "")
            (Transaction.contributions prev))
         prev)
      s2
  else s.

(** lines 64-79 *)
Definition removeParticipant (id : string) : Handler Transaction.t := fun render s =>
  let s1 :=
    setParticipants
      (filter (fun p => negb (String.eqb (Participant.id p) id)) (participants s)) s in
  let prev := currentTransaction s1 in
  let restContributions := JsObject.remove id (Transaction.contributions prev) in
  let updatedTransaction := Transaction.with_contributions restContributions prev in
  setCurrentTransaction
    (if Transaction.isSplitBill prev
     then Transaction.with_contributions
            (recalculateSplitBill (participants render) (Transaction.amount prev))
            updatedTransaction
     else updatedTransaction)
    s1.

(** lines 98-103 *)
Definition updateContribution (participantId value : string)
  : Handler Transaction.t := fun render s =>
  let prev := currentTransaction s in
  setCurrentTransaction
    (Transaction.with_contributions
       (JsObject.set participantId value (Transaction.contributions prev)) prev)
    s.

(** lines 105-114 *)
Definition toggleSplitBill : Handler Transaction.t := fun render s =>
  let prev := currentTransaction s in
  let isSplitBill := negb (Transaction.isSplitBill prev) in
  let contributions :=
    if isSplitBill
    then recalculateSplitBill (participants render) (Transaction.amount prev)
    else Transaction.contributions prev in
  setCurrentTransaction
    (Transaction.with_isSplitBill isSplitBill
       (Transaction.with_contributions contributions prev))
    s.

(** The draft that [submitTransaction] installs (lines 125-132). *)
Definition emptyTransaction (ps : list Participant.t) : Transaction.t :=
  Transaction.mk "" "" "" ""
    (JsObject.fromEntries (map (fun p => (Participant.id p, "")) ps))
    false.

(** lines 116-133; [now] is the value of [Date.now()]. *)
Definition submitTransaction (now : Z) : Handler Transaction.t := fun render s =>
  let s1 :=
    match editingTransactionId render with
    | Some editingId =>
        if JsString.truthy editingId then
          setEditingTransactionId None
            (setTransactions
               (map (fun t =>
                       if String.eqb (Transaction.id t) editingId
                       then Transaction.with_id editingId (currentTransaction render)
                       else t)
                  (transactions s))
               s)
        else
          setTransactions
            (transactions s
             ++ [Transaction.with_id (JsString.of_Z now)
                   (currentTransaction render)])
            s
    | None =>
        setTransactions
          (transactions s
           ++ [Transaction.with_id (JsString.of_Z now) (currentTransaction render)])
          s
    end in
  setCurrentTransaction (emptyTransaction (participants render)) s1.

(** lines 135-139.  [find] yields [undefined] for an id that no transaction
    bears, and the draft takes that value. *)
Definition editTransaction (id : string) : Handler (option Transaction.t) :=
  fun render s =>
  let transactionToEdit :=
    find (fun t => String.eqb (Transaction.id t) id) (transactions render) in
  setEditingTransactionId (Some id) (setCurrentTransaction transactionToEdit s).

(** lines 141-143 *)
Definition deleteTransaction (id : string) : Handler Transaction.t := fun render s =>
  setTransactions
    (filter (fun t => negb (String.eqb (Transaction.id t) id)) (transactions s)) s.

(** [summary[k]] read as an operand of [+=] or [-=], for a key that the
    summary owns or that is none of [JsObject.prototype_names]: the own
    value, and NaN for [undefined].  (For an absent key among those names
    the source reads the inherited value; the theorems on the summary
    exclude that case by hypothesis.) *)
Definition operand (k : string) (summary : JsObject.t JsNumber.number)
  : JsNumber.number :=
  match JsObject.get k summary with
  | Some x => x
  | None => JsNumber.NaN
  end.

(** The body of [transactions.forEach] in [calculateSummary]
    (lines 148-155).  The entry of a key [k] after it is the entry of the
    source whenever the summary owns [k] or [k] is none of
    [JsObject.prototype_names]; what the source does to other keys never
    changes the entry of [k]. *)
Definition summarize_transaction (summary : JsObject.t JsNumber.number)
  (t : Transaction.t) : JsObject.t JsNumber.number :=
  let summary1 :=
    if JsString.truthy (Transaction.payer t)
    then JsObject.set (Transaction.payer t)
           (JsNumber.add (operand (Transaction.payer t) summary)
              (JsNumber.or_zero (JsNumber.parseFloat (Transaction.amount t))))
           summary
    else summary in
  fold_left
    (fun sm entry =>
       let '(id, amount) := entry in
       JsObject.set id
         (JsNumber.sub (operand id sm)
            (JsNumber.or_zero (JsNumber.parseFloat amount)))
         sm)
    (JsObject.entries (Transaction.contributions t))
    summary1.

(** lines 145-158, over the participants and transactions of a render. *)
Definition calculateSummary (ps : list Participant.t) (ts : list Transaction.t)
  : JsObject.t JsNumber.number :=
  let summary :=
    JsObject.fromEntries (map (fun p => (Participant.id p, JsNumber.zero)) ps) in
  fold_left summarize_transaction ts summary.

Definition exceed_message : string :=
  "Total contributions exceed the transaction amount.".

Definition less_message : string :=
  "Total contributions are less than the transaction amount.".

(** lines 161 and 162-165 *)
Definition totalAmount (transaction : Transaction.t) : JsNumber.number :=
  JsNumber.or_zero (JsNumber.parseFloat (Transaction.amount transaction)).

Definition totalContributions (transaction : Transaction.t) : JsNumber.number :=
  fold_left
    (fun sum value =>
       let contributionAmount := JsNumber.parseFloat value in
       JsNumber.add sum
         (if JsNumber.isNaN contributionAmount then JsNumber.zero
          else contributionAmount))
    (JsObject.values (Transaction.contributions transaction))
    JsNumber.zero.

(** lines 160-173 *)
Definition validateContributions (transaction : Transaction.t) : string :=
  if JsNumber.gt (totalContributions transaction) (totalAmount transaction)
  then exceed_message
  else if JsNumber.lt (totalContributions transaction) (totalAmount transaction)
  then less_message
  else "".

(** The fields that the form passes to [updateCurrentTransaction]. *)
Inductive Field : Type := Field_title | Field_amount | Field_payer.

(** lines 88-96 *)
Definition updateCurrentTransaction (field : Field) (value : string)
  : Handler Transaction.t := fun render s =>
  let prev := currentTransaction s in
  let updatedTransaction :=
    match field with
    | Field_title =>
        Transaction.mk (Transaction.id prev) value (Transaction.amount prev)
          (Transaction.payer prev) (Transaction.contributions prev)
          (Transaction.isSplitBill prev)
    | Field_amount =>
        Transaction.mk (Transaction.id prev) (Transaction.title prev) value
          (Transaction.payer prev) (Transaction.contributions prev)
          (Transaction.isSplitBill prev)
    | Field_payer =>
        Transaction.mk (Transaction.id prev) (Transaction.title prev)
          (Transaction.amount prev) value (Transaction.contributions prev)
          (Transaction.isSplitBill prev)
    end in
  setCurrentTransaction
    (match field with
     | Field_amount =>
         if Transaction.isSplitBill prev
         then Transaction.with_contributions
                (recalculateSplitBill (participants render) value)
                updatedTransaction
         else updatedTransaction
     | _ => updatedTransaction
     end)
    s.

(** ** Vocabulary of the properties *)

Definition participant_ids (ps : list Participant.t) : list string :=
  map Participant.id ps.

Definition transaction_ids (ts : list Transaction.t) : list string :=
  map Transaction.id ts.

(** [l] is [l'] with some elements left out, the others in their order. *)
Inductive subsequence {A : Type} : list A -> list A -> Prop :=
| subsequence_nil : subsequence [] []
| subsequence_skip x l l' : subsequence l l' -> subsequence l (x :: l')
| subsequence_keep x l l' : subsequence l l' -> subsequence (x :: l) (x :: l').

(** The balance of one participant, read off the ledger: every transaction
    first credits its amount to the payer, then debits each participant's
    contribution. *)
Definition credited (k : string) (t : Transaction.t) : bool :=
  JsString.truthy (Transaction.payer t) && String.eqb k (Transaction.payer t).

Definition credit (k : string) (t : Transaction.t) (b : JsNumber.number)
  : JsNumber.number :=
  if credited k t
  then JsNumber.add b (JsNumber.or_zero (JsNumber.parseFloat (Transaction.amount t)))
  else b.

Definition debit (k : string) (t : Transaction.t) (b : JsNumber.number)
  : JsNumber.number :=
  match JsObject.get k (Transaction.contributions t) with
  | Some v => JsNumber.sub b (JsNumber.or_zero (JsNumber.parseFloat v))
  | None => b
  end.

Definition balance (k : string) (ts : list Transaction.t) : JsNumber.number :=
  fold_left (fun b t => debit k t (credit k t b)) ts JsNumber.zero.

(** [k] is the payer of [t] or has a contribution in [t]. *)
Definition referenced (k : string) (t : Transaction.t) : bool :=
  credited k t || JsObject.has k (Transaction.contributions t).

(** What one transaction does to the entry of [k] in the summary; [None] is
    an absent entry. *)
Definition entry_step (k : string) (e : option JsNumber.number)
  (t : Transaction.t) : option JsNumber.number :=
  let value e := match e with Some x => x | None => JsNumber.NaN end in
  let e1 := if credited k t then Some (credit k t (value e)) else e in
  match JsObject.get k (Transaction.contributions t) with
  | Some _ => Some (debit k t (value e1))
  | None => e1
  end.

(** [k] names a property that every object inherits. *)
Definition inherited (k : string) : bool :=
  existsb (String.eqb k) JsObject.prototype_names.

(** Objects have one property per key. *)
Definition well_formed (t : Transaction.t) : Prop :=
  NoDup (JsObject.keys (Transaction.contributions t)).

(** The readings of the specification that the code does not follow. *)

(** An id that is no participant gets no entry in the summary. *)
Definition summary_drops_strangers (ps : list Participant.t)
  (ts : list Transaction.t) : Prop :=
  forall k, ~ In k (participant_ids ps) ->
            JsObject.get k (calculateSummary ps ts) = None.

(** No message exactly when the contributions add up to the amount. *)
Definition balanced_iff_equal (t : Transaction.t) : Prop :=
  validateContributions t = ""
  <-> JsNumber.eq (totalContributions t) (totalAmount t) = true.

(** A submitted draft gets an id that no transaction of the ledger has. *)
Definition submit_appends_fresh (now : Z) (s : State) : Prop :=
  editingTransactionId s = None ->
  exists t, transactions (dispatch (submitTransaction now) s)
            = transactions s ++ [t]
            /\ ~ In (Transaction.id t) (transaction_ids (transactions s)).

(** ** Sample data *)

(** Ids are clock readings in milliseconds, as [Date.now()] gives them. *)
Definition ann : Participant.t := Participant.mk "1700000000001" "Ann".
Definition bob : Participant.t := Participant.mk "1700000000002" "Bob".

(** A draft of 100 split equally between Ann and Bob. *)
Definition split_draft : Transaction.t :=
  Transaction.mk "" "Dinner" "100" "1700000000001"
    [("1700000000001", "50.00"); ("1700000000002", "50.00")] true.

Definition split_state : State :=
  mkState [ann; bob] [] "" split_draft None.

(** Ann alone, a draft of 100 in equal-split mode, Bob typed in the form. *)
Definition solo_state : State :=
  mkState [ann] [] " Bob "
    (Transaction.mk "" "Dinner" "100" "1700000000001"
       [("1700000000001", "100.00")] true)
    None.

(** The example of the specification: Ann paid 100, 50 each. *)
Definition dinner : Transaction.t :=
  Transaction.mk "1700000000005" "Dinner" "100" "1700000000001"
    [("1700000000001", "50"); ("1700000000002", "50")] false.

Definition taxi : Transaction.t :=
  Transaction.mk "1700000000007" "Taxi" "30" "1700000000002"
    [("1700000000001", "15"); ("1700000000002", "15")] false.

(** A ledger of two transactions while the second one is being edited. *)
Definition editing_state : State :=
  mkState [ann; bob] [dinner; taxi] ""
    (Transaction.mk "1700000000007" "Cab" "40" "1700000000001"
       [("1700000000001", "20"); ("1700000000002", "20")] false)
    (Some "1700000000007").

(** The same with no edit in progress. *)
Definition idle_state : State :=
  mkState [ann; bob] [dinner; taxi] ""
    (Transaction.mk "" "Cab" "40" "1700000000001"
       [("1700000000001", "20"); ("1700000000002", "20")] false)
    None.

(** A transaction that names Bob only, and a participant nobody names. *)
Definition snack : Transaction.t :=
  Transaction.mk "1700000000006" "Snack" "10" "1700000000002"
    [("1700000000002", "10")] false.

Definition cy : Participant.t := Participant.mk "1700000000003" "Cy".

(** Contributions of both infinities against an amount of zero. *)
Definition unbounded : Transaction.t :=
  Transaction.mk "1700000000009" "" "0" "1700000000001"
    [("1700000000001", "Infinity"); ("1700000000002", "-Infinity")] false.

(** ** The view and its events (lines 179-342) *)

(** The state of the first render (lines 32-46); [stored] is the list read
    from local storage, empty when there is none. *)
Definition initialState (stored : list Participant.t) : State :=
  mkState stored [] "" (Transaction.mk "" "" "" "" [] false) None.

(** The component reads [currentTransaction.title] while it renders
    (line 224): a state whose draft is [undefined] throws there, any other
    is a state of the next render. *)
Definition renderable (s : State_ (option Transaction.t)) : option State :=
  match currentTransaction s with
  | Some d => Some (setCurrentTransaction d s)
  | None => None
  end.

(** The caption of the submit button (line 279). *)
Definition submitLabel (s : State) : string :=
  ((match editingTransactionId s with
    | Some e => if JsString.truthy e then "Update" else "Submit"
    | None => "Submit"
    end) ++ " Transaction")%string.

(** [participants.find(p => p.id === t.payer)?.name || 'Not specified']
    (line 323). *)
Definition payerLabel (ps : list Participant.t) (t : Transaction.t) : string :=
  match find (fun p => String.eqb (Participant.id p) (Transaction.payer t)) ps with
  | Some p =>
      if JsString.truthy (Participant.name p) then Participant.name p
      else "Not specified"
  | None => "Not specified"
  end.

(** [amount >= 0] on a number (line 303). *)
Definition nonnegative (amount : JsNumber.number) : bool :=
  SFleb JsNumber.zero amount.

(** A row of the balance list (lines 300-307): its key, the name shown, the
    amount handed to the currency formatter, and whether it is shown in
    green. *)
Record SummaryRow : Type := mkRow {
  row_key : string;
  row_name : string;
  row_amount : JsNumber.number;
  row_green : bool
}.

(** lines 297-309: one element per entry of the summary, [null] (here
    [None], nothing on the screen) when the id resolves to no participant. *)
Definition summaryRows (ps : list Participant.t) (ts : list Transaction.t)
  : list (option SummaryRow) :=
  map (fun entry =>
         let '(id, amount) := entry in
         match find (fun p => String.eqb (Participant.id p) id) ps with
         | Some participant =>
             Some (mkRow id (Participant.name participant) amount
                     (nonnegative amount))
         | None => None
         end)
    (JsObject.entries (calculateSummary ps ts)).

(** What the user can do on a rendered component.  The remove, edit and
    delete buttons exist per row of the state (lines 201-208, 328-333), the
    payer is chosen among the participants (lines 248-250), a contribution
    field exists per participant and is disabled in equal-split mode
    (lines 266-276).  The text fields accept any string here. *)
Inductive Event : Type :=
| TypeName (text : string)
| AddParticipant (now : Z)
| RemoveParticipant (id : string)
| UpdateField (field : Field) (value : string)
| UpdateContribution (participantId value : string)
| ToggleSplitBill
| Submit (now : Z)
| Edit (id : string)
| Delete (id : string).

Definition offered (ids : list string) (id : string) : bool :=
  existsb (String.eqb id) ids.

(** The state of the next render, [None] when the view has no control for
    the event or the next render throws. *)
Definition perform (e : Event) (s : State) : option State :=
  match e with
  | TypeName text => Some (setNewParticipant text s)
  | AddParticipant now => Some (dispatch (addParticipant now) s)
  | RemoveParticipant id =>
      if offered (participant_ids (participants s)) id
      then Some (dispatch (removeParticipant id) s) else None
  | UpdateField Field_payer value =>
      if offered (participant_ids (participants s)) value
      then Some (dispatch (updateCurrentTransaction Field_payer value) s)
      else None
  | UpdateField field value =>
      Some (dispatch (updateCurrentTransaction field value) s)
  | UpdateContribution participantId value =>
      if offered (participant_ids (participants s)) participantId
         && negb (Transaction.isSplitBill (currentTransaction s))
      then Some (dispatch (updateContribution participantId value) s)
      else None
  | ToggleSplitBill => Some (dispatch toggleSplitBill s)
  | Submit now => Some (dispatch (submitTransaction now) s)
  | Edit id =>
      if offered (transaction_ids (transactions s)) id
      then renderable (dispatch (editTransaction id) s) else None
  | Delete id =>
      if offered (transaction_ids (transactions s)) id
      then Some (dispatch (deleteTransaction id) s) else None
  end.

Fixpoint run (es : list Event) (s : State) : option State :=
  match es with
  | [] => Some s
  | e :: es' =>
      match perform e s with
      | Some s' => run es' s'
      | None => None
      end
  end.

(** The clock readings at which a sequence of events submits. *)
Fixpoint submit_times (es : list Event) : list Z :=
  match es with
  | [] => []
  | Submit now :: es' => now :: submit_times es'
  | _ :: es' => submit_times es'
  end.

(** An id printed from a clock reading. *)
Definition timestamp (id : string) : Prop := exists n : Z, id = JsString.of_Z n.

(** Every id of the ledger is printed from a clock reading, and so is the
    edit target when there is one. *)
Definition stamped (s : State) : Prop :=
  Forall timestamp (transaction_ids (transactions s))
  /\ (forall e, editingTransactionId s = Some e -> timestamp e).

(** A string of ASCII white space only: TAB, LF, VT, FF, CR, SP. *)
Fixpoint blank (s : string) : bool :=
  match s with
  | EmptyString => true
  | String c r =>
      existsb (Ascii.eqb c)
        (map ascii_of_nat [9; 10; 11; 12; 13; 32]%nat) && blank r
  end.

(** ** The model of the built-ins on known values *)

Example parseFloat_values :
  JsNumber.parseFloat "100" = JsNumber.of_Z 100
  /\ JsNumber.parseFloat "  -12.5e2 IDR" = JsNumber.of_Z (-1250)
  /\ JsNumber.parseFloat "0.1" = S754_finite false 7205759403792794 (-56)
  /\ JsNumber.parseFloat ".5" = JsNumber.div (JsNumber.of_Z 1) (JsNumber.of_Z 2)
  /\ JsNumber.parseFloat "5e-324" = S754_finite false 1 (-1074)
  /\ JsNumber.parseFloat "1e309" = S754_infinity false
  /\ JsNumber.parseFloat "-0" = S754_zero true
  /\ JsNumber.parseFloat "" = JsNumber.NaN
  /\ JsNumber.parseFloat "." = JsNumber.NaN
  /\ JsNumber.parseFloat "abc" = JsNumber.NaN.
Proof. repeat split; vm_compute; reflexivity. Qed.

Example toFixed2_values :
  JsNumber.toFixed2 (JsNumber.parseFloat "1.005") = "1.00"
  /\ JsNumber.toFixed2 (JsNumber.parseFloat "8.345") = "8.35"
  /\ JsNumber.toFixed2 (JsNumber.parseFloat "0.005") = "0.01"
  /\ JsNumber.toFixed2 (JsNumber.parseFloat "-0.001") = "-0.00"
  /\ JsNumber.toFixed2 (JsNumber.div (JsNumber.of_Z 100) (JsNumber.of_Z 3))
     = "33.33"
  /\ JsNumber.toFixed2 (JsNumber.parseFloat "999999999999999900000")
     = "999999999999999868928.00"
  /\ JsNumber.toFixed2 (JsNumber.parseFloat "1e21") = "1e+21"
  /\ JsNumber.toFixed2 (JsNumber.parseFloat "-1.2345e25") = "-1.2345e+25"
  /\ JsNumber.toFixed2 (JsNumber.div (JsNumber.of_Z 1) JsNumber.zero)
     = "Infinity".
Proof. repeat split; vm_compute; reflexivity. Qed.

Example trim_values :
  JsString.trim " Bob " = "Bob"
  /\ JsString.trim (JsString.bytes [9; 65; 32; 66; 226; 128; 168; 10]%nat) = "A B"
  /\ JsString.trim "   " = "".
Proof. repeat split; vm_compute; reflexivity. Qed.

(** Array indices come first, in ascending order; the other keys follow in
    the order of their creation; a second write keeps the place. *)
Example fromEntries_order :
  JsObject.fromEntries
    [("b", 1); ("10", 2); ("9", 3); ("a", 4); ("01", 5); ("9", 6);
     ("4294967295", 7); ("4294967294", 8)]
  = [("9", 6); ("10", 2); ("4294967294", 8); ("b", 1); ("a", 4); ("01", 5);
     ("4294967295", 7)].
Proof. vm_compute. reflexivity. Qed.

(** ** Reading and writing objects *)

Module JsObjectFacts.
Import JsObject.

Section Facts.
Context {V : Type}.
Implicit Types (o : JsObject.t V) (k : string) (v : V).

Lemma has_In_keys k o : has k o = true <-> In k (keys o).
Proof.
  unfold has. induction o as [|[k' v'] o IH]; simpl.
  - split; [discriminate | tauto].
  - destruct (String.eqb_spec k k') as [->|Hne].
    + split; auto.
    + rewrite IH. split; [auto | intros [H|H]; [congruence | exact H]].
Qed.

Lemma has_false_get k o : has k o = false <-> get k o = None.
Proof. unfold has. destruct (get k o); split; congruence. Qed.

Lemma get_replace k k' v o :
  has k' o = true ->
  get k (replace k' v o) = if String.eqb k k' then Some v else get k o.
Proof.
  unfold has. induction o as [|[k1 v1] o IH]; simpl; [discriminate|].
  destruct (String.eqb_spec k' k1) as [->|Hne]; simpl; intros H.
  - destruct (String.eqb_spec k k1); reflexivity.
  - rewrite (IH H).
    destruct (String.eqb_spec k k1) as [->|]; [|reflexivity].
    destruct (String.eqb_spec k1 k'); congruence.
Qed.

Lemma get_insert_index n k k' v o :
  has k' o = false ->
  get k (insert_index n k' v o) = if String.eqb k k' then Some v else get k o.
Proof.
  unfold has. induction o as [|[k1 v1] o IH]; simpl; [reflexivity|].
  destruct (String.eqb_spec k' k1) as [->|Hne]; [discriminate|]. intros H.
  destruct (array_index k1) as [n1|]; [destruct (n <? n1)|]; simpl;
    try reflexivity.
  rewrite (IH H).
  destruct (String.eqb_spec k k1) as [->|]; [|reflexivity].
  destruct (String.eqb_spec k1 k'); congruence.
Qed.

Lemma get_app k o o' :
  get k (o ++ o') = match get k o with Some x => Some x | None => get k o' end.
Proof.
  induction o as [|[k1 v1] o IH]; simpl; [reflexivity|].
  destruct (String.eqb k k1); auto.
Qed.

(** Reading after writing. *)
Lemma get_set k k' v o :
  get k (set k' v o) = if String.eqb k k' then Some v else get k o.
Proof.
  unfold set. destruct (has k' o) eqn:H.
  - now apply get_replace.
  - destruct (array_index k') as [n|].
    + now apply get_insert_index.
    + rewrite get_app. simpl. apply has_false_get in H.
      destruct (String.eqb_spec k k') as [->|]; [now rewrite H|].
      now destruct (get k o).
Qed.

Lemma get_set_same k v o : get k (set k v o) = Some v.
Proof. now rewrite get_set, String.eqb_refl. Qed.

Lemma get_remove k k' o :
  get k (remove k' o) = if String.eqb k k' then None else get k o.
Proof.
  unfold remove. induction o as [|[k1 v1] o IH]; simpl.
  - now destruct (String.eqb k k').
  - destruct (String.eqb_spec k' k1) as [->|Hne]; simpl.
    + rewrite IH. destruct (String.eqb k k1); reflexivity.
    + rewrite IH. destruct (String.eqb_spec k k1) as [->|]; [|reflexivity].
      destruct (String.eqb_spec k1 k'); congruence.
Qed.

Lemma keys_replace k v o : keys (replace k v o) = keys o.
Proof.
  unfold keys. induction o as [|[k1 v1] o IH]; simpl; [reflexivity|].
  destruct (String.eqb k k1); simpl; congruence.
Qed.

Lemma keys_insert_index n k v o :
  Permutation (keys (insert_index n k v o)) (k :: keys o).
Proof.
  unfold keys. induction o as [|[k1 v1] o IH]; simpl; [reflexivity|].
  destruct (array_index k1) as [n1|]; [destruct (n <? n1)|]; simpl;
    try reflexivity.
  rewrite IH. apply perm_swap.
Qed.

(** A write adds its key to the object unless the key is there. *)
Lemma keys_set k v o :
  Permutation (keys (set k v o)) (if has k o then keys o else k :: keys o).
Proof.
  unfold set. destruct (has k o).
  - now rewrite keys_replace.
  - destruct (array_index k).
    + apply keys_insert_index.
    + unfold keys. rewrite map_app. simpl.
      symmetry. apply Permutation_cons_append.
Qed.

Lemma NoDup_keys_set k v o : NoDup (keys o) -> NoDup (keys (set k v o)).
Proof.
  intros H. eapply Permutation_NoDup; [symmetry; apply keys_set|].
  destruct (has k o) eqn:E; [exact H|].
  constructor; [|exact H].
  rewrite <- has_In_keys. congruence.
Qed.

Lemma In_keys_set k k' v o :
  In k (keys (set k' v o)) <-> k = k' \/ In k (keys o).
Proof.
  assert (P := keys_set k' v o).
  assert (In k (keys (set k' v o))
          <-> In k (if has k' o then keys o else k' :: keys o)) as ->
    by (split; apply Permutation_in; [|symmetry]; exact P).
  clear P.
  destruct (has k' o) eqn:E; simpl.
  - apply has_In_keys in E. split; [auto | intros [->|H]; auto].
  - split; intros [H|H]; auto.
Qed.

End Facts.
End JsObjectFacts.

Module FromEntriesFacts.
Import JsObject JsObjectFacts.

Section Facts.
Context {V : Type}.
Implicit Types (o : JsObject.t V) (k : string) (l : list (string * V)).

Lemma NoDup_keys_assign_all l o :
  NoDup (keys o) -> NoDup (keys (fold_left assign l o)).
Proof.
  revert o. induction l as [|[k v] l IH]; simpl; intros o H; [exact H|].
  apply IH, NoDup_keys_set, H.
Qed.

Lemma In_keys_assign_all k l o :
  In k (keys (fold_left assign l o)) <-> In k (map fst l) \/ In k (keys o).
Proof.
  revert o. induction l as [|[k' v] l IH]; simpl; intros o; [tauto|].
  rewrite IH. unfold assign. simpl. rewrite In_keys_set.
  intuition congruence.
Qed.

(** One property per key, whatever the list of entries. *)
Lemma NoDup_keys_fromEntries l : NoDup (keys (fromEntries l)).
Proof. apply NoDup_keys_assign_all. constructor. Qed.

Lemma In_keys_fromEntries k l :
  In k (keys (fromEntries l)) <-> In k (map fst l).
Proof.
  unfold fromEntries. rewrite In_keys_assign_all. simpl. tauto.
Qed.

(** Entries that all carry the value [c]. *)
Lemma get_assign_all_const {P : Type} (f : P -> string) (c : V) k (ps : list P) o :
  get k (fold_left assign (map (fun p => (f p, c)) ps) o)
  = if existsb (String.eqb k) (map f ps) then Some c else get k o.
Proof.
  revert o. induction ps as [|p ps IH]; simpl; intros o; [reflexivity|].
  rewrite IH. unfold assign. simpl. rewrite get_set.
  destruct (String.eqb k (f p)); simpl; [|reflexivity].
  now destruct (existsb _ _).
Qed.

Lemma get_fromEntries_const {P : Type} (f : P -> string) (c : V) k (ps : list P) :
  get k (fromEntries (map (fun p => (f p, c)) ps))
  = if existsb (String.eqb k) (map f ps) then Some c else None.
Proof. apply (get_assign_all_const f c k ps []). Qed.

End Facts.

Lemma existsb_eqb_In k (l : list string) :
  existsb (String.eqb k) l = true <-> In k l.
Proof.
  rewrite existsb_exists. split.
  - intros (x & H & E). apply String.eqb_eq in E. now subst.
  - intros H. exists k. split; [exact H | apply String.eqb_refl].
Qed.

End FromEntriesFacts.

Module JsNumberFacts.
Import JsNumber.

Lemma add_NaN x : add NaN x = NaN.
Proof. reflexivity. Qed.

Lemma sub_NaN x : sub NaN x = NaN.
Proof. reflexivity. Qed.

Lemma isNaN_or_zero x : isNaN (or_zero x) = false.
Proof. now destruct x. Qed.

Lemma compare_NaN_iff a b :
  SFcompare a b = None <-> isNaN a = true \/ isNaN b = true.
Proof.
  destruct a as [| [|] | | [|] ? ?], b as [| [|] | | [|] ? ?]; simpl;
    intuition discriminate.
Qed.

(** Swapping the operands of a comparison reverses its outcome. *)
Lemma compare_antisym a b :
  SFcompare b a = option_map CompOpp (SFcompare a b).
Proof.
  destruct a as [sa | sa | | sa ma ea], b as [sb | sb | | sb mb eb];
    try destruct sa; try destruct sb; try reflexivity; simpl;
    rewrite (Z.compare_antisym ea eb); destruct (ea ?= eb); simpl;
    try reflexivity; rewrite (ZC4 ma mb);
    destruct (Pos.compare_cont Eq mb ma); reflexivity.
Qed.

Lemma lt_gt_exclusive a b : lt a b = true -> gt a b = false.
Proof.
  unfold lt, gt, SFltb. rewrite (compare_antisym a b).
  now destruct (SFcompare a b) as [[| |]|].
Qed.

(** Neither smaller nor greater: equal, or not comparable. *)
Lemma neither_lt_nor_gt a b :
  isNaN b = false ->
  (gt a b = false /\ lt a b = false) <-> (eq a b = true \/ isNaN a = true).
Proof.
  intros Hb. unfold lt, gt, eq, SFltb, SFeqb.
  rewrite (compare_antisym a b).
  destruct (SFcompare a b) as [[| |]|] eqn:E; simpl.
  - intuition.
  - split; [intros [_ H]; discriminate|].
    intros [H|H]; [discriminate|].
    assert (N : SFcompare a b = None) by (apply compare_NaN_iff; auto).
    congruence.
  - split; [intros [H _]; discriminate|].
    intros [H|H]; [discriminate|].
    assert (N : SFcompare a b = None) by (apply compare_NaN_iff; auto).
    congruence.
  - apply compare_NaN_iff in E. destruct E as [E|E]; [|congruence].
    intuition.
Qed.

End JsNumberFacts.

Module JsStringFacts.

(** Distinct integers have distinct numerals. *)
Lemma of_Z_inj z z' : JsString.of_Z z = JsString.of_Z z' -> z = z'.
Proof.
  unfold JsString.of_Z. intros H.
  assert (N : forall n, Z.to_int n <> Decimal.Pos Decimal.Nil
                        /\ Z.to_int n <> Decimal.Neg Decimal.Nil).
  { intros [|p|p]; simpl; split; try discriminate;
      intros E; injection E; apply DecimalPos.Unsigned.to_uint_nonnil. }
  apply DecimalZ.to_int_inj.
  destruct (N z) as [A B], (N z') as [A' B'].
  pose proof (NilZero.isi _ A B) as I.
  pose proof (NilZero.isi _ A' B') as I'.
  rewrite H in I. congruence.
Qed.

Lemma truthy_iff s : JsString.truthy s = true <-> s <> "".
Proof.
  unfold JsString.truthy. destruct (String.eqb_spec s ""); simpl;
    split; congruence.
Qed.

End JsStringFacts.

(** ** The split calculator and the participant registry *)

Section ValuesFacts.
Import JsObject.
Context {V : Type} (P : V -> Prop).

Lemma Forall_values_set k v (o : JsObject.t V) :
  P v -> Forall P (values o) -> Forall P (values (set k v o)).
Proof.
  intros Hv Ho. unfold set. destruct (has k o).
  - induction o as [|[k1 v1] o IH]; simpl; [constructor|].
    inversion Ho; subst. destruct (String.eqb k k1); constructor; auto.
  - destruct (array_index k) as [n|].
    + induction o as [|[k1 v1] o IH]; simpl; [repeat constructor; exact Hv|].
      inversion Ho; subst.
      destruct (array_index k1) as [n1|]; [destruct (n <? n1)|];
        simpl; constructor; auto.
    + unfold values. rewrite map_app. apply Forall_app. split; [exact Ho|].
      repeat constructor. exact Hv.
Qed.

Lemma Forall_values_assign_all (l : list (string * V)) (o : JsObject.t V) :
  Forall P (map snd l) -> Forall P (values o) ->
  Forall P (values (fold_left assign l o)).
Proof.
  revert o. induction l as [|[k v] l IH]; simpl; intros o Hl Ho; [exact Ho|].
  inversion Hl; subst. apply IH; [assumption|].
  now apply Forall_values_set.
Qed.

Lemma Forall_values_fromEntries (l : list (string * V)) :
  Forall P (map snd l) -> Forall P (values (fromEntries l)).
Proof. intros H. apply Forall_values_assign_all; [exact H | constructor]. Qed.

End ValuesFacts.

(** An object built from one entry [(id, c)] per participant: one property
    per participant id, each holding [c]. *)
Lemma uniform_entries (c : string) (ps : list Participant.t) :
  let o := JsObject.fromEntries (map (fun p => (Participant.id p, c)) ps) in
  NoDup (JsObject.keys o)
  /\ (forall k, In k (JsObject.keys o) <-> In k (participant_ids ps))
  /\ Forall (fun v => v = c) (JsObject.values o).
Proof.
  split; [apply FromEntriesFacts.NoDup_keys_fromEntries|]. split.
  - intros k. rewrite FromEntriesFacts.In_keys_fromEntries.
    unfold participant_ids. now rewrite map_map.
  - apply Forall_values_fromEntries. rewrite map_map. simpl.
    apply Forall_forall. intros v Hv. apply in_map_iff in Hv.
    now destruct Hv as (p & <- & _).
Qed.

(** What [recalculateSplitBill] returns on a non-empty list: one entry per
    participant id, each the quotient of the parsed amount by the number of
    participants, printed by [toFixed(2)]. *)
Lemma recalculateSplitBill_entries (ps : list Participant.t) (amount : string) :
  ps <> [] ->
  let o := recalculateSplitBill ps amount in
  NoDup (JsObject.keys o)
  /\ (forall k, In k (JsObject.keys o) <-> In k (participant_ids ps))
  /\ Forall (fun v => v = splitAmount amount (Z.of_nat (List.length ps)))
       (JsObject.values o).
Proof.
  intros H. unfold recalculateSplitBill.
  destruct ps as [|p ps]; [congruence|].
  apply (uniform_entries _ (p :: ps)).
Qed.

Lemma recalculateSplitBill_nil (amount : string) :
  recalculateSplitBill [] amount = [].
Proof. reflexivity. Qed.

(** An amount that is no number is not read as 0: its share prints as NaN. *)
Lemma splitAmount_NaN (amount : string) (count : Z) :
  JsNumber.parseFloat amount = JsNumber.NaN -> splitAmount amount count = "NaN".
Proof. unfold splitAmount. intros ->. reflexivity. Qed.

(** C1. With the amount field empty, the split over Ann alone assigns her the
    string NaN, whereas 0 divided by 1 prints as 0.00. *)
Theorem recalculateSplitBill_empty_amount :
  recalculateSplitBill [ann] "" = [("1700000000001", "NaN")]
  /\ JsNumber.parseFloat "" = JsNumber.NaN
  /\ JsNumber.toFixed2 (JsNumber.div JsNumber.zero (JsNumber.of_Z 1)) = "0.00".
Proof. repeat split; vm_compute; reflexivity. Qed.

(** In equal-split mode [removeParticipant] recomputes the split over the
    participants of the render that created the handler: the list before
    the removal. *)
Lemma removeParticipant_split (id : string) (s : State) :
  Transaction.isSplitBill (currentTransaction s) = true ->
  let s' := dispatch (removeParticipant id) s in
  participants s'
  = filter (fun p => negb (String.eqb (Participant.id p) id)) (participants s)
  /\ Transaction.contributions (currentTransaction s')
     = recalculateSplitBill (participants s)
         (Transaction.amount (currentTransaction s)).
Proof.
  intros H. unfold dispatch, removeParticipant. simpl. rewrite H. simpl. auto.
Qed.

(** The participant just removed is among the keys again, as long as it was
    a participant. *)
Lemma removeParticipant_split_keeps_removed (id : string) (s : State) :
  Transaction.isSplitBill (currentTransaction s) = true ->
  In id (participant_ids (participants s)) ->
  let s' := dispatch (removeParticipant id) s in
  ~ In id (participant_ids (participants s'))
  /\ In id (JsObject.keys (Transaction.contributions (currentTransaction s'))).
Proof.
  intros Hs Hi. destruct (removeParticipant_split id s Hs) as [P C].
  cbv zeta. rewrite P, C. split.
  - unfold participant_ids. rewrite in_map_iff. intros (p & E & I).
    apply filter_In in I. destruct I as [_ I]. subst id.
    now rewrite String.eqb_refl in I.
  - apply recalculateSplitBill_entries; [|exact Hi].
    intros E. rewrite E in Hi. exact Hi.
Qed.

(** C2. Removing Ann from a draft of 100 split between Ann and Bob leaves Bob
    as the only participant, yet the recomputed contributions still hold
    Ann's entry and both shares are 100 / 2; the split over the remaining
    participants would give Bob 100.00. *)
Theorem removeParticipant_stale_split :
  let s' := dispatch (removeParticipant "1700000000001") split_state in
  participants s' = [bob]
  /\ Transaction.contributions (currentTransaction s')
     = [("1700000000001", "50.00"); ("1700000000002", "50.00")]
  /\ recalculateSplitBill (participants s')
       (Transaction.amount (currentTransaction s'))
     = [("1700000000002", "100.00")].
Proof. repeat split; vm_compute; reflexivity. Qed.

(** [addParticipant] writes one entry, that of the new participant. *)
Lemma addParticipant_contributions (now : Z) (s : State) (k : string) :
  JsString.trim (newParticipant s) <> "" ->
  let s' := dispatch (addParticipant now) s in
  let prev := currentTransaction s in
  participants s'
  = participants s
    ++ [Participant.mk (JsString.of_Z now) (JsString.trim (newParticipant s))]
  /\ JsObject.get k (Transaction.contributions (currentTransaction s'))
     = if String.eqb k (JsString.of_Z now)
       then Some (if Transaction.isSplitBill prev
                  then splitAmount (Transaction.amount prev)
                         (Z.of_nat (List.length (participants s)) + 1)
                  else "")
       else JsObject.get k (Transaction.contributions prev).
Proof.
  intros H. apply JsStringFacts.truthy_iff in H.
  unfold dispatch, addParticipant. rewrite H. simpl.
  split; [reflexivity|]. apply JsObjectFacts.get_set.
Qed.

(** C3. Adding Bob while a draft of 100 is split equally over Ann alone gives
    Bob 100 / 2 and leaves Ann's share at 100.00; the split over the new
    participant set would give each 50.00. *)
Theorem addParticipant_stale_share :
  let s' := dispatch (addParticipant 1700000000002) solo_state in
  participants s' = [ann; bob]
  /\ Transaction.contributions (currentTransaction s')
     = [("1700000000001", "100.00"); ("1700000000002", "50.00")]
  /\ recalculateSplitBill (participants s')
       (Transaction.amount (currentTransaction s'))
     = [("1700000000001", "50.00"); ("1700000000002", "50.00")].
Proof. repeat split; vm_compute; reflexivity. Qed.

(** ** The transaction ledger *)

Section LedgerFacts.

Lemma subsequence_refl {A : Type} (l : list A) : subsequence l l.
Proof. induction l; constructor; assumption. Qed.

Lemma subsequence_filter {A : Type} (f : A -> bool) (l : list A) :
  subsequence (filter f l) l.
Proof.
  induction l as [|x l IH]; simpl; [constructor|].
  destruct (f x); constructor; assumption.
Qed.

Variable id : string.

Lemma filter_absent (ts : list Transaction.t) :
  ~ In id (transaction_ids ts) ->
  filter (fun t => negb (String.eqb (Transaction.id t) id)) ts = ts.
Proof.
  induction ts as [|t ts IH]; simpl; [reflexivity|]. intros H.
  destruct (String.eqb_spec (Transaction.id t) id) as [E|E].
  - exfalso. apply H. now left.
  - simpl. f_equal. apply IH. tauto.
Qed.

Lemma map_absent (d : Transaction.t) (ts : list Transaction.t) :
  ~ In id (transaction_ids ts) ->
  map (fun t => if String.eqb (Transaction.id t) id then d else t) ts = ts.
Proof.
  induction ts as [|t ts IH]; simpl; [reflexivity|]. intros H.
  destruct (String.eqb_spec (Transaction.id t) id) as [E|E].
  - exfalso. apply H. now left.
  - f_equal. apply IH. tauto.
Qed.

Lemma ids_map_replace (d : Transaction.t) (ts : list Transaction.t) :
  transaction_ids
    (map (fun t => if String.eqb (Transaction.id t) id
                   then Transaction.with_id id d else t) ts)
  = transaction_ids ts.
Proof.
  unfold transaction_ids. rewrite map_map. apply map_ext. intros t.
  destruct (String.eqb_spec (Transaction.id t) id) as [E|E]; simpl; congruence.
Qed.

Lemma find_absent (ts : list Transaction.t) :
  ~ In id (transaction_ids ts) ->
  find (fun t => String.eqb (Transaction.id t) id) ts = None.
Proof.
  induction ts as [|t ts IH]; simpl; [reflexivity|]. intros H.
  destruct (String.eqb_spec (Transaction.id t) id) as [E|E].
  - exfalso. apply H. now left.
  - apply IH. tauto.
Qed.

Lemma find_present (ts : list Transaction.t) :
  In id (transaction_ids ts) ->
  exists t before after,
    find (fun t => String.eqb (Transaction.id t) id) ts = Some t
    /\ Transaction.id t = id
    /\ ts = before ++ t :: after
    /\ ~ In id (transaction_ids before).
Proof.
  induction ts as [|t ts IH]; simpl; [tauto|]. intros H.
  destruct (String.eqb_spec (Transaction.id t) id) as [E|E].
  - exists t, [], ts. simpl. tauto.
  - destruct IH as (t' & b & a & F & I & D & N); [tauto|].
    exists t', (t :: b), a. simpl.
    split; [exact F|]. split; [exact I|]. split; [now rewrite D|].
    intros [X|X]; [exact (E X) | exact (N X)].
Qed.

End LedgerFacts.



(** C7. With an edit target [e] set (a non-empty string), [submitTransaction]
    rewrites the ledger position by position: a transaction bearing [e]
    becomes the draft with id [e], the others stay, so ids and order are
    kept, and the edit target is cleared.  With no edit target it appends
    the draft under the numeral of the clock reading; that id is new
    whenever the ids of the ledger are numerals of other clock readings. *)
Theorem submitTransaction_ledger (now : Z) (s : State) :
  let s' := dispatch (submitTransaction now) s in
  (forall e, editingTransactionId s = Some e -> JsString.truthy e = true ->
     editingTransactionId s' = None
     /\ transaction_ids (transactions s') = transaction_ids (transactions s)
     /\ forall i t, nth_error (transactions s) i = Some t ->
          nth_error (transactions s') i
          = Some (if String.eqb (Transaction.id t) e
                  then Transaction.with_id e (currentTransaction s)
                  else t))
  /\ (editingTransactionId s = None ->
      transactions s'
      = transactions s
        ++ [Transaction.with_id (JsString.of_Z now) (currentTransaction s)]
      /\ editingTransactionId s' = None
      /\ (Forall (fun t => exists n, Transaction.id t = JsString.of_Z n /\ n <> now)
            (transactions s) ->
          ~ In (JsString.of_Z now) (transaction_ids (transactions s)))).
Proof.
  cbv zeta. unfold dispatch, submitTransaction. split.
  - intros e He Ht. rewrite He, Ht. simpl. split; [reflexivity|]. split.
    + apply ids_map_replace.
    + intros i t Hi. rewrite nth_error_map, Hi. reflexivity.
  - intros He. rewrite He. simpl. split; [reflexivity|]. split; [exact He|].
    intros F I. unfold transaction_ids in I. apply in_map_iff in I.
    destruct I as (t & E & I). rewrite Forall_forall in F.
    destruct (F t I) as (n & En & Nn). rewrite En in E.
    apply JsStringFacts.of_Z_inj in E. congruence.
Qed.

Lemma submitTransaction_ledger_witness :
  transaction_ids
    (transactions (dispatch (submitTransaction 1700000000008) editing_state))
  = ["1700000000005"; "1700000000007"]
  /\ ~ In "1700000000008" (transaction_ids (transactions idle_state)).
Proof.
  split.
  - destruct (submitTransaction_ledger 1700000000008 editing_state) as [H _].
    destruct (H "1700000000007") as (_ & E & _); [reflexivity | reflexivity | exact E].
  - destruct (submitTransaction_ledger 1700000000008 idle_state) as [_ H].
    destruct H as (_ & _ & H); [reflexivity|].
    apply H. repeat constructor.
    + exists 1700000000005. split; [reflexivity | lia].
    + exists 1700000000007. split; [reflexivity | lia].
Defined.

(** Two submissions at the same clock reading share their id. *)
Lemma submitTransaction_fresh_counterexample :
  ~ submit_appends_fresh 1700000000007 idle_state.
Proof.
  intros H. destruct (H eq_refl) as (t & E & N).
  apply N. vm_compute in E.
  injection E as <-. vm_compute. auto.
Qed.

(** C8. After [submitTransaction], in either mode, the draft has empty id,
    title, amount and payer, is not in equal-split mode, and its
    contributions hold one property per participant of the registry, each
    the empty string. *)
Theorem submitTransaction_resets_draft (now : Z) (s : State) :
  let s' := dispatch (submitTransaction now) s in
  let d := currentTransaction s' in
  Transaction.id d = "" /\ Transaction.title d = ""
  /\ Transaction.amount d = "" /\ Transaction.payer d = ""
  /\ Transaction.isSplitBill d = false
  /\ participants s' = participants s
  /\ NoDup (JsObject.keys (Transaction.contributions d))
  /\ (forall k, In k (JsObject.keys (Transaction.contributions d))
                <-> In k (participant_ids (participants s')))
  /\ Forall (fun v => v = "") (JsObject.values (Transaction.contributions d)).
Proof.
  assert (E : currentTransaction (dispatch (submitTransaction now) s)
              = emptyTransaction (participants s)) by reflexivity.
  assert (P : participants (dispatch (submitTransaction now) s) = participants s).
  { unfold dispatch, submitTransaction.
    destruct (editingTransactionId s) as [e|]; [destruct (JsString.truthy e)|];
      reflexivity. }
  cbv zeta. rewrite E, P. unfold emptyTransaction. simpl.
  repeat (split; [reflexivity|]).
  apply (uniform_entries "" (participants s)).
Qed.

(** C9. [deleteTransaction] keeps exactly the transactions with another id,
    in their order; it changes nothing when no transaction bears the id;
    and it leaves the edit target, the draft and the participants as they
    were, also when the id is the edit target. *)
Theorem deleteTransaction_frame (id : string) (s : State) :
  let s' := dispatch (deleteTransaction id) s in
  (forall t, In t (transactions s')
             <-> In t (transactions s) /\ Transaction.id t <> id)
  /\ subsequence (transactions s') (transactions s)
  /\ (~ In id (transaction_ids (transactions s)) ->
      transactions s' = transactions s)
  /\ editingTransactionId s' = editingTransactionId s
  /\ currentTransaction s' = currentTransaction s
  /\ participants s' = participants s
  /\ newParticipant s' = newParticipant s.
Proof.
  unfold dispatch, deleteTransaction. simpl.
  split; [|split; [apply subsequence_filter|split; [apply filter_absent|]]].
  - intros t. rewrite filter_In.
    destruct (String.eqb_spec (Transaction.id t) id); simpl;
      intuition discriminate.
  - repeat split.
Qed.

Lemma deleteTransaction_frame_witness :
  transactions (dispatch (deleteTransaction "1700000000009") editing_state)
  = [dinner; taxi]
  /\ editingTransactionId
       (dispatch (deleteTransaction "1700000000007") editing_state)
     = Some "1700000000007".
Proof.
  split.
  - apply (deleteTransaction_frame "1700000000009" editing_state).
    vm_compute. intros [H|[H|[]]]; discriminate.
  - apply (deleteTransaction_frame "1700000000007" editing_state).
Defined.

(** C10. When the edit target is set (a non-empty string) and no transaction
    bears it, [submitTransaction] leaves the ledger as it is, clears the
    edit target and resets the draft: empty id, title, amount and payer,
    not in equal-split mode, and contributions that hold one property per
    participant id, each the empty string. *)
Theorem submitTransaction_dangling_target (now : Z) (s : State) (e : string) :
  editingTransactionId s = Some e ->
  JsString.truthy e = true ->
  ~ In e (transaction_ids (transactions s)) ->
  let s' := dispatch (submitTransaction now) s in
  let d := currentTransaction s' in
  transactions s' = transactions s
  /\ editingTransactionId s' = None
  /\ participants s' = participants s
  /\ Transaction.id d = "" /\ Transaction.title d = ""
  /\ Transaction.amount d = "" /\ Transaction.payer d = ""
  /\ Transaction.isSplitBill d = false
  /\ NoDup (JsObject.keys (Transaction.contributions d))
  /\ (forall k, In k (JsObject.keys (Transaction.contributions d))
                <-> In k (participant_ids (participants s)))
  /\ Forall (fun v => v = "") (JsObject.values (Transaction.contributions d)).
Proof.
  intros He Ht Ha. unfold dispatch, submitTransaction. rewrite He, Ht. simpl.
  split; [now apply map_absent|].
  repeat (split; [reflexivity|]).
  apply (uniform_entries "" (participants s)).
Qed.

Lemma submitTransaction_dangling_target_witness :
  let s := dispatch (deleteTransaction "1700000000007") editing_state in
  let s' := dispatch (submitTransaction 1700000000008) s in
  transactions s' = [dinner]
  /\ editingTransactionId s' = None
  /\ Transaction.title (currentTransaction s') = ""
  /\ In "1700000000002"
       (JsObject.keys (Transaction.contributions (currentTransaction s')))
  /\ Forall (fun v => v = "")
       (JsObject.values (Transaction.contributions (currentTransaction s'))).
Proof.
  destruct (submitTransaction_dangling_target 1700000000008
              (dispatch (deleteTransaction "1700000000007") editing_state)
              "1700000000007")
    as (T & E & _ & _ & Ti & _ & _ & _ & _ & K & V).
  - reflexivity.
  - reflexivity.
  - vm_compute. intros [H|[]]; discriminate.
  - split; [exact T|]. split; [exact E|]. split; [exact Ti|].
    split; [|exact V]. apply K. simpl. auto.
Defined.

(** ** Validation of the contributions *)

(** C6. [validateContributions] answers with the exceed message exactly when
    the sum of the parsed contributions is greater than the parsed amount,
    with the less-than message exactly when it is smaller, and with the
    empty string exactly when the two are equal as numbers or the sum is
    NaN; no tolerance is applied. *)
Theorem validateContributions_outcomes (t : Transaction.t) :
  (validateContributions t = exceed_message
   <-> JsNumber.gt (totalContributions t) (totalAmount t) = true)
  /\ (validateContributions t = less_message
      <-> JsNumber.lt (totalContributions t) (totalAmount t) = true)
  /\ (validateContributions t = ""
      <-> JsNumber.eq (totalContributions t) (totalAmount t) = true
          \/ JsNumber.isNaN (totalContributions t) = true).
Proof.
  pose proof (JsNumberFacts.neither_lt_nor_gt (totalContributions t)
                (totalAmount t) (JsNumberFacts.isNaN_or_zero _)) as N.
  pose proof (JsNumberFacts.lt_gt_exclusive (totalContributions t)
                (totalAmount t)) as X.
  unfold validateContributions.
  destruct (JsNumber.gt _ _) eqn:G, (JsNumber.lt _ _) eqn:L.
  - specialize (X eq_refl). discriminate.
  - repeat split; try discriminate; try reflexivity.
    intros H. apply N in H. destruct H; discriminate.
  - repeat split; try discriminate; try reflexivity.
    intros H. apply N in H. destruct H; discriminate.
  - repeat split; try discriminate; try reflexivity.
    intros _. apply N. auto.
Qed.

(** Contributions of Infinity and -Infinity add up to NaN, which is neither
    greater nor smaller than the amount, and not equal to it. *)
Lemma validateContributions_counterexample : ~ balanced_iff_equal unbounded.
Proof.
  unfold balanced_iff_equal. intros [H _].
  specialize (H eq_refl). vm_compute in H. discriminate.
Qed.

(** ** The balance summary *)

Section SummaryFacts.
Import JsObject.

Variable k : string.

Lemma operand_set k' v sm :
  operand k (set k' v sm) = if String.eqb k k' then v else operand k sm.
Proof.
  unfold operand. rewrite JsObjectFacts.get_set.
  now destruct (String.eqb k k').
Qed.

(** The loop over the contributions of one transaction, seen from [k]. *)
Lemma get_debits (es : JsObject.t string) (sm : JsObject.t JsNumber.number) :
  NoDup (keys es) ->
  get k
    (fold_left
       (fun sm entry =>
          let '(id, amount) := entry in
          set id
            (JsNumber.sub (operand id sm)
               (JsNumber.or_zero (JsNumber.parseFloat amount)))
            sm)
       es sm)
  = match get k es with
    | Some v =>
        Some (JsNumber.sub (operand k sm)
                (JsNumber.or_zero (JsNumber.parseFloat v)))
    | None => get k sm
    end.
Proof.
  revert sm. induction es as [|[k1 v1] es IH]; intros sm D; [reflexivity|].
  inversion D as [|? ? N D']; subst. simpl. rewrite (IH _ D').
  destruct (String.eqb_spec k k1) as [->|Hne].
  - assert (E : get k1 es = None).
    { apply JsObjectFacts.has_false_get.
      destruct (has k1 es) eqn:Hh; [|reflexivity].
      apply JsObjectFacts.has_In_keys in Hh. contradiction. }
    rewrite E. apply JsObjectFacts.get_set_same.
  - rewrite operand_set, JsObjectFacts.get_set.
    apply String.eqb_neq in Hne. now rewrite Hne.
Qed.

Lemma get_summarize_transaction (sm : JsObject.t JsNumber.number)
  (t : Transaction.t) :
  well_formed t ->
  get k (summarize_transaction sm t) = entry_step k (get k sm) t.
Proof.
  intros W. unfold summarize_transaction, entries. rewrite (get_debits _ _ W).
  unfold entry_step, debit, credit, credited, operand.
  destruct (JsString.truthy (Transaction.payer t)); simpl.
  - rewrite JsObjectFacts.get_set.
    destruct (String.eqb_spec k (Transaction.payer t)) as [->|Hne];
      destruct (get _ (Transaction.contributions t)); reflexivity.
  - destruct (get k (Transaction.contributions t)); reflexivity.
Qed.

Lemma get_summarize_all (ts : list Transaction.t)
  (sm : JsObject.t JsNumber.number) :
  Forall well_formed ts ->
  get k (fold_left summarize_transaction ts sm)
  = fold_left (entry_step k) ts (get k sm).
Proof.
  revert sm. induction ts as [|t ts IH]; intros sm W; [reflexivity|].
  inversion W; subst. simpl.
  rewrite IH by assumption. now rewrite get_summarize_transaction.
Qed.

(** An entry that exists follows the balance of its participant. *)
Lemma entry_step_Some (b : JsNumber.number) (t : Transaction.t) :
  entry_step k (Some b) t = Some (debit k t (credit k t b)).
Proof.
  unfold entry_step, debit, credit.
  destruct (credited k t), (get k (Transaction.contributions t)); reflexivity.
Qed.

Lemma entry_steps_Some (ts : list Transaction.t) (b : JsNumber.number) :
  fold_left (entry_step k) ts (Some b)
  = Some (fold_left (fun b t => debit k t (credit k t b)) ts b).
Proof.
  revert b. induction ts as [|t ts IH]; intros b; [reflexivity|].
  simpl. now rewrite entry_step_Some, IH.
Qed.

(** An entry created by [+=] or [-=] holds NaN and keeps it. *)
Lemma entry_step_None (t : Transaction.t) :
  entry_step k None t
  = if referenced k t then Some JsNumber.NaN else None.
Proof.
  unfold entry_step, referenced, has, debit, credit.
  destruct (credited k t), (get k (Transaction.contributions t)); reflexivity.
Qed.

Lemma entry_steps_NaN (ts : list Transaction.t) :
  fold_left (entry_step k) ts (Some JsNumber.NaN) = Some JsNumber.NaN.
Proof.
  induction ts as [|t ts IH]; [reflexivity|]. simpl.
  rewrite entry_step_Some.
  replace (debit k t (credit k t JsNumber.NaN)) with JsNumber.NaN; [exact IH|].
  unfold debit, credit.
  destruct (credited k t), (get k (Transaction.contributions t)); reflexivity.
Qed.

Lemma entry_steps_None (ts : list Transaction.t) :
  fold_left (entry_step k) ts None
  = if existsb (referenced k) ts then Some JsNumber.NaN else None.
Proof.
  induction ts as [|t ts IH]; [reflexivity|]. simpl.
  rewrite entry_step_None. destruct (referenced k t); simpl.
  - apply entry_steps_NaN.
  - exact IH.
Qed.

End SummaryFacts.

(** C4. Over transactions whose contribution objects have one property per
    key: the entry of a participant is their balance, which starts at 0, is
    credited with the parsed amount of every transaction they paid (payer
    non-empty) and debited with their parsed contribution of every
    transaction.  An id that is no participant has no entry when no
    transaction names it as payer or contribution key; when one does and
    the id names no property of [Object.prototype], it has an entry, and
    that entry holds NaN. *)
Theorem calculateSummary_entries (ps : list Participant.t)
  (ts : list Transaction.t) (k : string) :
  Forall well_formed ts ->
  (In k (participant_ids ps) ->
   JsObject.get k (calculateSummary ps ts) = Some (balance k ts))
  /\ (~ In k (participant_ids ps) -> inherited k = false ->
      existsb (referenced k) ts = true ->
      JsObject.get k (calculateSummary ps ts) = Some JsNumber.NaN)
  /\ (~ In k (participant_ids ps) -> existsb (referenced k) ts = false ->
      JsObject.get k (calculateSummary ps ts) = None).
Proof.
  intros W. unfold calculateSummary.
  rewrite (get_summarize_all k ts _ W).
  rewrite (FromEntriesFacts.get_fromEntries_const Participant.id JsNumber.zero k ps).
  fold (participant_ids ps).
  destruct (existsb (String.eqb k) (participant_ids ps)) eqn:E.
  - apply FromEntriesFacts.existsb_eqb_In in E.
    split; [|split; intros N; contradiction].
    intros _. apply entry_steps_Some.
  - assert (N : ~ In k (participant_ids ps)).
    { intros I. apply FromEntriesFacts.existsb_eqb_In in I. congruence. }
    rewrite entry_steps_None.
    split; [intros I; contradiction|].
    split; [intros _ _ R | intros _ R]; now rewrite R.
Qed.

Lemma calculateSummary_entries_witness :
  JsObject.get "1700000000001" (calculateSummary [ann] [dinner])
  = Some (balance "1700000000001" [dinner])
  /\ JsObject.get "1700000000002" (calculateSummary [ann] [dinner])
     = Some JsNumber.NaN
  /\ JsObject.get "1700000000003" (calculateSummary [ann] [dinner]) = None.
Proof.
  assert (W : Forall well_formed [dinner]).
  { repeat constructor; simpl; intuition discriminate. }
  split; [|split].
  - apply (calculateSummary_entries [ann] [dinner] "1700000000001" W). simpl. auto.
  - apply (calculateSummary_entries [ann] [dinner] "1700000000002" W).
    + simpl. intuition discriminate.
    + reflexivity.
    + reflexivity.
  - apply (calculateSummary_entries [ann] [dinner] "1700000000003" W).
    + simpl. intuition discriminate.
    + reflexivity.
Defined.

(** Bob's contribution to a dinner creates an entry for him although he is
    no participant. *)
Lemma calculateSummary_counterexample : ~ summary_drops_strangers [ann] [dinner].
Proof.
  intros H. specialize (H "1700000000002"). vm_compute in H.
  assert (N : Some S754_nan = None :> option spec_float).
  { apply H. intros [E|[]]. discriminate. }
  discriminate.
Qed.

(** The example of the specification: Ann paid 100, Ann and Bob owe 50 each. *)
Example calculateSummary_dinner :
  calculateSummary [ann; bob] [dinner]
  = [("1700000000001", JsNumber.of_Z 50); ("1700000000002", JsNumber.of_Z (-50))].
Proof. vm_compute. reflexivity. Qed.

(** * Further properties of the handlers *)

(** ** Shares *)

(** On a non-empty list every participant id holds the share of the count,
    no other key exists, and with distinct ids there are as many entries as
    participants. *)
Theorem recalculateSplitBill_shares (ps : list Participant.t)
  (amount k : string) :
  ps <> [] ->
  let o := recalculateSplitBill ps amount in
  (In k (participant_ids ps) ->
   JsObject.get k o = Some (splitAmount amount (Z.of_nat (List.length ps))))
  /\ (~ In k (participant_ids ps) -> JsObject.get k o = None)
  /\ (NoDup (participant_ids ps) -> List.length o = List.length ps).
Proof.
  intros Hne. cbv zeta.
  assert (E : recalculateSplitBill ps amount
              = JsObject.fromEntries
                  (map (fun p => (Participant.id p,
                                   splitAmount amount (Z.of_nat (List.length ps))))
                     ps)).
  { unfold recalculateSplitBill. destruct ps; [congruence | reflexivity]. }
  rewrite E. clear E.
  assert (L : NoDup (participant_ids ps) ->
              List.length
                (JsObject.fromEntries
                   (map (fun p => (Participant.id p,
                                    splitAmount amount (Z.of_nat (List.length ps))))
                      ps))
              = List.length ps).
  { intros D.
    destruct (uniform_entries (splitAmount amount (Z.of_nat (List.length ps))) ps)
      as (N & K & _).
    etransitivity; [symmetry; apply (length_map fst)|].
    etransitivity; [|apply (length_map Participant.id)].
    apply Permutation_length.
    apply NoDup_Permutation; [exact N | exact D | exact K]. }
  rewrite (FromEntriesFacts.get_fromEntries_const Participant.id _ k ps).
  fold (participant_ids ps).
  destruct (existsb (String.eqb k) (participant_ids ps)) eqn:X.
  - apply FromEntriesFacts.existsb_eqb_In in X. split; [reflexivity|].
    split; [contradiction | exact L].
  - assert (N : ~ In k (participant_ids ps)).
    { intros I. apply FromEntriesFacts.existsb_eqb_In in I. congruence. }
    split; [contradiction|]. split; [reflexivity | exact L].
Qed.

Lemma recalculateSplitBill_shares_witness :
  JsObject.get "1700000000002" (recalculateSplitBill [ann; bob] "100")
  = Some "50.00"
  /\ JsObject.get "1700000000003" (recalculateSplitBill [ann; bob] "100") = None
  /\ List.length (recalculateSplitBill [ann; bob] "100") = 2%nat.
Proof.
  assert (N : [ann; bob] <> []) by discriminate.
  split; [|split].
  - apply (recalculateSplitBill_shares [ann; bob] "100" "1700000000002" N).
    simpl. auto.
  - apply (recalculateSplitBill_shares [ann; bob] "100" "1700000000003" N).
    simpl. intuition discriminate.
  - apply (recalculateSplitBill_shares [ann; bob] "100" "" N).
    repeat constructor; simpl; intuition discriminate.
Defined.

Lemma removeParticipant_split_keeps_removed_witness :
  In "1700000000001"
    (JsObject.keys
       (Transaction.contributions
          (currentTransaction
             (dispatch (removeParticipant "1700000000001") split_state)))).
Proof.
  apply (removeParticipant_split_keeps_removed "1700000000001" split_state).
  - reflexivity.
  - simpl. auto.
Defined.

(** ** The participant registry *)

Section RegistryFacts.
Import JsObject.

Lemma with_contributions_same (d : Transaction.t) :
  Transaction.with_contributions (Transaction.contributions d) d = d.
Proof. now destruct d. Qed.

Lemma with_id_same (d : Transaction.t) :
  Transaction.with_id (Transaction.id d) d = d.
Proof. now destruct d. Qed.

Lemma filter_other_participants (id : string) (ps : list Participant.t) :
  ~ In id (participant_ids ps) ->
  filter (fun p => negb (String.eqb (Participant.id p) id)) ps = ps.
Proof.
  induction ps as [|p ps IH]; simpl; [reflexivity|]. intros H.
  destruct (String.eqb_spec (Participant.id p) id) as [E|E].
  - exfalso. apply H. now left.
  - simpl. f_equal. apply IH. tauto.
Qed.

Lemma not_In_filtered_ids (id : string) (ps : list Participant.t) :
  ~ In id
      (participant_ids
         (filter (fun p => negb (String.eqb (Participant.id p) id)) ps)).
Proof.
  unfold participant_ids. rewrite in_map_iff. intros (p & E & I).
  apply filter_In in I. destruct I as [_ I]. subst id.
  now rewrite String.eqb_refl in I.
Qed.

Lemma NoDup_map_filter {A B : Type} (f : A -> B) (g : A -> bool) (l : list A) :
  NoDup (map f l) -> NoDup (map f (filter g l)).
Proof.
  induction l as [|a l IH]; simpl; [auto|]. intros H.
  inversion H as [|? ? N D]; subst.
  destruct (g a); simpl; [|auto]. constructor; [|auto].
  rewrite in_map_iff. intros (b & E & I). apply filter_In in I.
  apply N. rewrite in_map_iff. exists b. tauto.
Qed.

Context {V : Type}.

Lemma remove_absent k (o : JsObject.t V) : has k o = false -> remove k o = o.
Proof.
  unfold has, remove. induction o as [|[k1 v1] o IH]; simpl; [reflexivity|].
  destruct (String.eqb_spec k k1) as [->|N]; [discriminate|].
  intros H. simpl. f_equal. exact (IH H).
Qed.

Lemma remove_insert_index n k v (o : JsObject.t V) :
  remove k (insert_index n k v o) = remove k o.
Proof.
  unfold remove. induction o as [|[k1 v1] o IH]; simpl.
  - now rewrite String.eqb_refl.
  - destruct (array_index k1) as [n1|]; [destruct (n <? n1)|]; simpl;
      rewrite ?String.eqb_refl; simpl; try reflexivity.
    rewrite IH. reflexivity.
Qed.

(** Deleting a key that was just created gives the object back. *)
Lemma remove_set_absent k v (o : JsObject.t V) :
  has k o = false -> remove k (set k v o) = o.
Proof.
  intros H. unfold set. rewrite H. destruct (array_index k) as [n|].
  - rewrite remove_insert_index. now apply remove_absent.
  - unfold remove. rewrite filter_app. simpl. rewrite String.eqb_refl. simpl.
    rewrite app_nil_r. now apply remove_absent.
Qed.

End RegistryFacts.

(** Outside equal-split mode [removeParticipant] drops every participant of
    that id and the id's contribution, and leaves everything else: the other
    participants in their order, the other contributions, the payer of the
    draft (also when it is the removed id), the ledger and the edit
    target. *)
Theorem removeParticipant_manual (id : string) (s : State) :
  Transaction.isSplitBill (currentTransaction s) = false ->
  let s' := dispatch (removeParticipant id) s in
  let d := currentTransaction s in
  let d' := currentTransaction s' in
  ~ In id (participant_ids (participants s'))
  /\ subsequence (participants s') (participants s)
  /\ (forall p, In p (participants s')
                <-> In p (participants s) /\ Participant.id p <> id)
  /\ (forall k, JsObject.get k (Transaction.contributions d')
                = if String.eqb k id then None
                  else JsObject.get k (Transaction.contributions d))
  /\ Transaction.payer d' = Transaction.payer d
  /\ Transaction.amount d' = Transaction.amount d
  /\ Transaction.title d' = Transaction.title d
  /\ Transaction.isSplitBill d' = false
  /\ transactions s' = transactions s
  /\ editingTransactionId s' = editingTransactionId s.
Proof.
  intros H. unfold dispatch, removeParticipant. simpl. rewrite H. simpl.
  split; [apply not_In_filtered_ids|].
  split; [apply subsequence_filter|].
  split.
  { intros p. rewrite filter_In.
    destruct (String.eqb_spec (Participant.id p) id); simpl;
      intuition discriminate. }
  split; [intros k; apply JsObjectFacts.get_remove|].
  repeat split. exact H.
Qed.

Lemma removeParticipant_manual_witness :
  let s' := dispatch (removeParticipant "1700000000001") idle_state in
  participants s' = [bob]
  /\ Transaction.payer (currentTransaction s') = "1700000000001"
  /\ transactions s' = [dinner; taxi].
Proof.
  destruct (removeParticipant_manual "1700000000001" idle_state eq_refl)
    as (_ & _ & _ & _ & P & _ & _ & _ & T & _).
  split; [reflexivity|]. split; [exact P | exact T].
Defined.

(** [addParticipant] with a name that is not blank appends one participant
    whose id is the numeral of the clock reading and whose name is the
    trimmed text, empties the form, and touches one contribution only: that
    of the new id. *)
Theorem addParticipant_effect (now : Z) (s : State) :
  JsString.trim (newParticipant s) <> "" ->
  let s' := dispatch (addParticipant now) s in
  let d := currentTransaction s in
  let d' := currentTransaction s' in
  participants s'
  = participants s
    ++ [Participant.mk (JsString.of_Z now) (JsString.trim (newParticipant s))]
  /\ newParticipant s' = ""
  /\ transactions s' = transactions s
  /\ editingTransactionId s' = editingTransactionId s
  /\ Transaction.amount d' = Transaction.amount d
  /\ Transaction.payer d' = Transaction.payer d
  /\ Transaction.isSplitBill d' = Transaction.isSplitBill d
  /\ (Transaction.isSplitBill d = false ->
      JsObject.get (JsString.of_Z now) (Transaction.contributions d') = Some "")
  /\ (forall k, k <> JsString.of_Z now ->
        JsObject.get k (Transaction.contributions d')
        = JsObject.get k (Transaction.contributions d)).
Proof.
  intros H. apply JsStringFacts.truthy_iff in H.
  unfold dispatch, addParticipant. rewrite H. simpl.
  repeat split.
  - intros E. rewrite E. apply JsObjectFacts.get_set_same.
  - intros k N. rewrite JsObjectFacts.get_set.
    apply String.eqb_neq in N. now rewrite N.
Qed.

Lemma addParticipant_effect_witness :
  participants (dispatch (addParticipant 1700000000002) solo_state) = [ann; bob]
  /\ newParticipant (dispatch (addParticipant 1700000000002) solo_state) = "".
Proof.
  assert (N : JsString.trim (newParticipant solo_state) <> "")
    by (vm_compute; discriminate).
  destruct (addParticipant_effect 1700000000002 solo_state N) as (P & F & _).
  split; [exact P | exact F].
Defined.

Lemma trimStart_blank (s : string) :
  blank s = true -> JsString.trimStart s = "".
Proof.
  unfold JsString.trimStart.
  induction s as [|c r IH]; [reflexivity|]. simpl blank.
  intros H. apply andb_prop in H. destruct H as [C B].
  assert (S : JsString.strip_any JsString.white_space (String c r) = Some r).
  { simpl in C. repeat rewrite orb_true_iff in C.
    destruct C as [C|[C|[C|[C|[C|[C|C]]]]]]; try discriminate;
      apply Ascii.eqb_eq in C; subst c; reflexivity. }
  cbn [JsString.strip_all String.length]. rewrite S. exact (IH B).
Qed.

(** A name of white space only adds nobody: the state stays as it is, the
    text of the form included. *)
Theorem addParticipant_blank (now : Z) (s : State) :
  blank (newParticipant s) = true ->
  dispatch (addParticipant now) s = s.
Proof.
  intros H. unfold dispatch, addParticipant, JsString.trim.
  rewrite (trimStart_blank _ H). reflexivity.
Qed.

Lemma addParticipant_blank_witness :
  dispatch (addParticipant 1700000000003) (setNewParticipant "   " idle_state)
  = setNewParticipant "   " idle_state.
Proof.
  apply (addParticipant_blank 1700000000003 (setNewParticipant "   " idle_state)).
  reflexivity.
Defined.

(** Adding a participant under a new id and removing that id again, outside
    equal-split mode, gives back the participants, the draft and the
    ledger. *)
Theorem add_then_remove (now : Z) (s : State) :
  JsString.trim (newParticipant s) <> "" ->
  Transaction.isSplitBill (currentTransaction s) = false ->
  ~ In (JsString.of_Z now) (participant_ids (participants s)) ->
  JsObject.has (JsString.of_Z now)
    (Transaction.contributions (currentTransaction s)) = false ->
  let s' := dispatch (removeParticipant (JsString.of_Z now))
              (dispatch (addParticipant now) s) in
  participants s' = participants s
  /\ currentTransaction s' = currentTransaction s
  /\ transactions s' = transactions s
  /\ editingTransactionId s' = editingTransactionId s.
Proof.
  intros Hn Hs Hp Hc. apply JsStringFacts.truthy_iff in Hn.
  unfold dispatch, addParticipant, removeParticipant. rewrite Hn. simpl.
  rewrite Hs. simpl. repeat split.
  - rewrite filter_app. simpl. rewrite String.eqb_refl. simpl.
    rewrite app_nil_r. now apply filter_other_participants.
  - rewrite (remove_set_absent _ _ _ Hc).
    destruct (currentTransaction s). reflexivity.
Qed.

Lemma add_then_remove_witness :
  let s := setNewParticipant "Cy" idle_state in
  participants
    (dispatch (removeParticipant "1700000000003")
       (dispatch (addParticipant 1700000000003) s))
  = [ann; bob].
Proof.
  apply (add_then_remove 1700000000003 (setNewParticipant "Cy" idle_state)).
  - vm_compute. discriminate.
  - reflexivity.
  - simpl. intuition discriminate.
  - reflexivity.
Defined.

(** Participant ids stay pairwise distinct: a removal keeps them so, and so
    does an addition at a clock reading whose numeral no participant has. *)
Theorem participant_ids_distinct (now : Z) (id : string) (s : State) :
  NoDup (participant_ids (participants s)) ->
  NoDup (participant_ids (participants (dispatch (removeParticipant id) s)))
  /\ (~ In (JsString.of_Z now) (participant_ids (participants s)) ->
      NoDup (participant_ids (participants (dispatch (addParticipant now) s)))).
Proof.
  intros D. split.
  - unfold dispatch, removeParticipant. simpl. now apply NoDup_map_filter.
  - intros N. unfold dispatch, addParticipant.
    destruct (JsString.truthy _); [|exact D]. simpl.
    unfold participant_ids. rewrite map_app. simpl.
    apply NoDup_app; [exact D | repeat constructor; auto |].
    intros x I [<-|[]]. exact (N I).
Qed.

Lemma participant_ids_distinct_witness :
  NoDup (participant_ids
           (participants (dispatch (addParticipant 1700000000002) solo_state))).
Proof.
  apply (participant_ids_distinct 1700000000002 "" solo_state).
  - repeat constructor. simpl. tauto.
  - simpl. intuition discriminate.
Defined.

(** ** The draft editor *)

(** Ticking the equal-split box replaces the contributions by the split over
    the participants; unticking keeps them.  So ticking and unticking a
    draft that was not split leaves it unsplit with the computed shares in
    place of the contributions typed before.  Nothing else changes. *)
Theorem toggleSplitBill_effect (s : State) :
  let s1 := dispatch toggleSplitBill s in
  let s2 := dispatch toggleSplitBill s1 in
  let d := currentTransaction s in
  let shares := recalculateSplitBill (participants s) (Transaction.amount d) in
  Transaction.isSplitBill (currentTransaction s1) = negb (Transaction.isSplitBill d)
  /\ Transaction.isSplitBill (currentTransaction s2) = Transaction.isSplitBill d
  /\ Transaction.contributions (currentTransaction s2) = shares
  /\ (Transaction.isSplitBill d = false ->
      Transaction.contributions (currentTransaction s1) = shares)
  /\ (Transaction.isSplitBill d = true ->
      Transaction.contributions (currentTransaction s1) = Transaction.contributions d)
  /\ Transaction.amount (currentTransaction s2) = Transaction.amount d
  /\ Transaction.payer (currentTransaction s2) = Transaction.payer d
  /\ participants s2 = participants s
  /\ transactions s2 = transactions s
  /\ editingTransactionId s2 = editingTransactionId s.
Proof.
  unfold dispatch, toggleSplitBill. simpl.
  destruct (Transaction.isSplitBill (currentTransaction s)) eqn:E; simpl;
    repeat split; try reflexivity; intros; discriminate.
Qed.

Lemma toggleSplitBill_effect_witness :
  Transaction.contributions
    (currentTransaction (dispatch toggleSplitBill idle_state))
  = [("1700000000001", "20.00"); ("1700000000002", "20.00")]
  /\ Transaction.contributions
       (currentTransaction (dispatch toggleSplitBill split_state))
     = [("1700000000001", "50.00"); ("1700000000002", "50.00")].
Proof.
  split.
  - destruct (toggleSplitBill_effect idle_state) as (_ & _ & _ & H & _).
    exact (H eq_refl).
  - destruct (toggleSplitBill_effect split_state) as (_ & _ & _ & _ & H & _).
    exact (H eq_refl).
Defined.

(** Typing an amount in equal-split mode gives every participant the share
    of the new amount and leaves no other entry, whatever the contributions
    were.  Outside that mode, and for the title and the payer, the
    contributions are left alone. *)
Theorem updateCurrentTransaction_effect (field : Field) (value : string)
  (s : State) (k : string) :
  let s' := dispatch (updateCurrentTransaction field value) s in
  let d := currentTransaction s in
  let d' := currentTransaction s' in
  (field = Field_amount -> Transaction.isSplitBill d = true ->
   participants s <> [] ->
   Transaction.amount d' = value
   /\ JsObject.get k (Transaction.contributions d')
      = if offered (participant_ids (participants s)) k
        then Some (splitAmount value (Z.of_nat (List.length (participants s))))
        else None)
  /\ (field <> Field_amount \/ Transaction.isSplitBill d = false ->
      Transaction.contributions d' = Transaction.contributions d)
  /\ Transaction.isSplitBill d' = Transaction.isSplitBill d
  /\ Transaction.id d' = Transaction.id d
  /\ participants s' = participants s
  /\ transactions s' = transactions s
  /\ editingTransactionId s' = editingTransactionId s.
Proof.
  unfold dispatch, updateCurrentTransaction. simpl. split; [|split].
  - intros -> H N. rewrite H. simpl. split; [reflexivity|].
    unfold recalculateSplitBill.
    destruct (participants s) as [|p ps] eqn:E; [congruence|].
    apply (FromEntriesFacts.get_fromEntries_const Participant.id _ k (p :: ps)).
  - intros [N|H].
    + destruct field; try reflexivity. congruence.
    + rewrite H. destruct field; reflexivity.
  - destruct field, (Transaction.isSplitBill (currentTransaction s));
      repeat split.
Qed.

Lemma updateCurrentTransaction_effect_witness :
  let s' := dispatch (updateCurrentTransaction Field_amount "30") split_state in
  JsObject.get "1700000000002"
    (Transaction.contributions (currentTransaction s')) = Some "15.00"
  /\ Transaction.contributions
       (currentTransaction
          (dispatch (updateCurrentTransaction Field_title "Lunch") split_state))
     = Transaction.contributions split_draft.
Proof.
  split.
  - destruct (updateCurrentTransaction_effect Field_amount "30" split_state
                "1700000000002") as (H & _).
    destruct H as (_ & H); [reflexivity | reflexivity | discriminate | exact H].
  - destruct (updateCurrentTransaction_effect Field_title "Lunch" split_state "")
      as (_ & H & _).
    apply H. left. discriminate.
Defined.

(** [updateContribution] writes the entry it is given and no other; it does
    so in equal-split mode as well, and for an id that is no participant. *)
Theorem updateContribution_effect (participantId value : string) (s : State)
  (k : string) :
  let s' := dispatch (updateContribution participantId value) s in
  let d := currentTransaction s in
  let d' := currentTransaction s' in
  JsObject.get k (Transaction.contributions d')
  = (if String.eqb k participantId then Some value
     else JsObject.get k (Transaction.contributions d))
  /\ (NoDup (JsObject.keys (Transaction.contributions d)) ->
      NoDup (JsObject.keys (Transaction.contributions d')))
  /\ Transaction.isSplitBill d' = Transaction.isSplitBill d
  /\ Transaction.amount d' = Transaction.amount d
  /\ participants s' = participants s
  /\ transactions s' = transactions s.
Proof.
  unfold dispatch, updateContribution. simpl.
  split; [apply JsObjectFacts.get_set|].
  split; [apply JsObjectFacts.NoDup_keys_set|]. repeat split.
Qed.

Lemma updateContribution_effect_witness :
  NoDup
    (JsObject.keys
       (Transaction.contributions
          (currentTransaction
             (dispatch (updateContribution "1700000000002" "25") split_state)))).
Proof.
  apply (updateContribution_effect "1700000000002" "25" split_state "").
  repeat constructor; simpl; intuition discriminate.
Defined.

(** ** Validation of a fresh form *)

Lemma sum_of_blanks (vs : list string) :
  Forall (fun v => v = "") vs ->
  fold_left
    (fun sum value =>
       let contributionAmount := JsNumber.parseFloat value in
       JsNumber.add sum
         (if JsNumber.isNaN contributionAmount then JsNumber.zero
          else contributionAmount))
    vs JsNumber.zero
  = JsNumber.zero.
Proof.
  induction 1 as [|v vs -> _ IH]; [reflexivity | exact IH].
Qed.

(** The empty form never shows a validation message, however many
    participants there are: not at the first render and not after a
    submission. *)
Theorem validateContributions_fresh_form (now : Z) (s : State)
  (stored : list Participant.t) :
  validateContributions (currentTransaction (initialState stored)) = ""
  /\ validateContributions
       (currentTransaction (dispatch (submitTransaction now) s)) = "".
Proof.
  split; [reflexivity|].
  change (currentTransaction (dispatch (submitTransaction now) s))
    with (emptyTransaction (participants s)).
  unfold validateContributions, totalContributions.
  rewrite sum_of_blanks; [reflexivity|].
  apply (uniform_entries "" (participants s)).
Qed.

(** ** The balance list *)

Section BalanceFacts.
Import JsObject.

Lemma In_keys_debits (k : string) (es : JsObject.t string)
  (sm : JsObject.t JsNumber.number) :
  In k (keys
          (fold_left
             (fun sm entry =>
                let '(id, amount) := entry in
                set id
                  (JsNumber.sub (operand id sm)
                     (JsNumber.or_zero (JsNumber.parseFloat amount)))
                  sm)
             es sm))
  <-> In k (keys sm) \/ In k (keys es).
Proof.
  revert sm. induction es as [|[k1 v1] es IH]; intros sm; simpl; [tauto|].
  rewrite IH, JsObjectFacts.In_keys_set. intuition congruence.
Qed.

Lemma NoDup_keys_debits (es : JsObject.t string)
  (sm : JsObject.t JsNumber.number) :
  NoDup (keys sm) ->
  NoDup (keys
           (fold_left
              (fun sm entry =>
                 let '(id, amount) := entry in
                 set id
                   (JsNumber.sub (operand id sm)
                      (JsNumber.or_zero (JsNumber.parseFloat amount)))
                   sm)
              es sm)).
Proof.
  revert sm. induction es as [|[k1 v1] es IH]; intros sm D; simpl; [exact D|].
  apply IH, JsObjectFacts.NoDup_keys_set, D.
Qed.

Lemma credited_iff k t :
  credited k t = true
  <-> JsString.truthy (Transaction.payer t) = true /\ k = Transaction.payer t.
Proof.
  unfold credited. rewrite andb_true_iff, String.eqb_eq. tauto.
Qed.

Lemma In_keys_summarize_transaction k sm t :
  In k (keys (summarize_transaction sm t))
  <-> In k (keys sm) \/ referenced k t = true.
Proof.
  unfold summarize_transaction, entries, referenced.
  rewrite In_keys_debits, orb_true_iff, JsObjectFacts.has_In_keys, credited_iff.
  destruct (JsString.truthy (Transaction.payer t)).
  - rewrite JsObjectFacts.In_keys_set. intuition.
  - intuition discriminate.
Qed.

Lemma NoDup_keys_summarize_transaction sm t :
  NoDup (keys sm) -> NoDup (keys (summarize_transaction sm t)).
Proof.
  intros D. unfold summarize_transaction. apply NoDup_keys_debits.
  destruct (JsString.truthy _); [apply JsObjectFacts.NoDup_keys_set|]; exact D.
Qed.

Lemma In_keys_summarize_all k ts sm :
  In k (keys (fold_left summarize_transaction ts sm))
  <-> In k (keys sm) \/ existsb (referenced k) ts = true.
Proof.
  revert sm. induction ts as [|t ts IH]; intros sm; simpl.
  - intuition discriminate.
  - rewrite IH, In_keys_summarize_transaction, orb_true_iff. tauto.
Qed.

Lemma NoDup_keys_summarize_all ts sm :
  NoDup (keys sm) -> NoDup (keys (fold_left summarize_transaction ts sm)).
Proof.
  revert sm. induction ts as [|t ts IH]; intros sm D; simpl; [exact D|].
  apply IH, NoDup_keys_summarize_transaction, D.
Qed.

Lemma entry_step_unreferenced k e t :
  referenced k t = false -> entry_step k e t = e.
Proof.
  unfold referenced, has, entry_step. intros H.
  apply orb_false_elim in H. destruct H as [C G]. rewrite C.
  now destruct (get k (Transaction.contributions t)).
Qed.

Lemma entry_steps_referenced k ts e :
  fold_left (entry_step k) ts e
  = fold_left (entry_step k) (filter (referenced k) ts) e.
Proof.
  revert e. induction ts as [|t ts IH]; intros e; simpl; [reflexivity|].
  destruct (referenced k t) eqn:R; simpl.
  - apply IH.
  - rewrite (entry_step_unreferenced k e t R). apply IH.
Qed.

Lemma Forall_filter_keep {A : Type} (P : A -> Prop) (f : A -> bool) (l : list A) :
  Forall P l -> Forall P (filter f l).
Proof.
  intros H. apply Forall_forall. intros x I. apply filter_In in I.
  rewrite Forall_forall in H. apply H. tauto.
Qed.

Lemma get_of_entry {V : Type} k (v : V) (o : JsObject.t V) :
  NoDup (keys o) -> In (k, v) o -> get k o = Some v.
Proof.
  induction o as [|[k1 v1] o IH]; simpl; [tauto|]. intros D I.
  inversion D as [|? ? N D']; subst.
  destruct I as [E|I].
  - injection E as -> ->. now rewrite String.eqb_refl.
  - destruct (String.eqb_spec k k1) as [->|_]; [|auto].
    exfalso. apply N. unfold keys. apply in_map_iff. now exists (k1, v).
Qed.

Lemma entry_of_key {V : Type} k (o : JsObject.t V) :
  In k (keys o) -> exists v, In (k, v) o.
Proof.
  unfold keys. rewrite in_map_iff. intros ([k' v] & E & I). simpl in E.
  subst. now exists v.
Qed.

End BalanceFacts.

(** The summary has one entry per key.  For a key that is a participant id
    or names no property of [Object.prototype]: it is a key of the summary
    exactly when it is a participant id, a non-empty payer or a
    contribution key of the ledger. *)
Theorem calculateSummary_keys (ps : list Participant.t)
  (ts : list Transaction.t) (k : string) :
  In k (participant_ids ps) \/ inherited k = false ->
  NoDup (JsObject.keys (calculateSummary ps ts))
  /\ (In k (JsObject.keys (calculateSummary ps ts))
      <-> In k (participant_ids ps) \/ existsb (referenced k) ts = true).
Proof.
  intros _. unfold calculateSummary. split.
  - apply NoDup_keys_summarize_all, FromEntriesFacts.NoDup_keys_fromEntries.
  - rewrite In_keys_summarize_all, FromEntriesFacts.In_keys_fromEntries.
    rewrite map_map. simpl. reflexivity.
Qed.

Lemma calculateSummary_keys_witness :
  In "1700000000002" (JsObject.keys (calculateSummary [ann] [dinner; snack]))
  /\ ~ In "1700000000003" (JsObject.keys (calculateSummary [ann] [dinner; snack])).
Proof.
  split.
  - destruct (calculateSummary_keys [ann] [dinner; snack] "1700000000002")
      as [_ K]; [right; reflexivity|].
    apply (proj2 K). right. reflexivity.
  - destruct (calculateSummary_keys [ann] [dinner; snack] "1700000000003")
      as [_ K]; [right; reflexivity|].
    intros I. destruct (proj1 K I) as [[E|[]]|E]; discriminate.
Defined.

(** For a key that is a participant id or names no property of
    [Object.prototype]: its entry depends on the transactions that name it
    only, so the others can be deleted from the ledger without changing it;
    and a participant whom no transaction names has the balance 0. *)
Theorem calculateSummary_local (ps : list Participant.t)
  (ts : list Transaction.t) (k : string) :
  Forall well_formed ts ->
  In k (participant_ids ps) \/ inherited k = false ->
  JsObject.get k (calculateSummary ps ts)
  = JsObject.get k (calculateSummary ps (filter (referenced k) ts))
  /\ (In k (participant_ids ps) -> existsb (referenced k) ts = false ->
      JsObject.get k (calculateSummary ps ts) = Some JsNumber.zero).
Proof.
  intros W _. unfold calculateSummary.
  rewrite (get_summarize_all k ts _ W).
  rewrite (get_summarize_all k _ _ (Forall_filter_keep _ (referenced k) _ W)).
  split; [apply entry_steps_referenced|].
  intros I R.
  rewrite (FromEntriesFacts.get_fromEntries_const Participant.id JsNumber.zero k ps).
  fold (participant_ids ps).
  apply FromEntriesFacts.existsb_eqb_In in I. rewrite I.
  rewrite entry_steps_referenced.
  replace (filter (referenced k) ts) with (@nil Transaction.t); [reflexivity|].
  clear W. induction ts as [|t ts IH]; [reflexivity|].
  simpl in R. apply orb_false_elim in R. destruct R as [R1 R2].
  simpl. rewrite R1. exact (IH R2).
Qed.

(** Ann is named by the dinner and the taxi, not by the snack: her entry is
    the same with and without the snack.  Cy is named by nothing: 0. *)
Lemma calculateSummary_local_witness :
  JsObject.get "1700000000001" (calculateSummary [ann; bob; cy] [dinner; snack; taxi])
  = JsObject.get "1700000000001" (calculateSummary [ann; bob; cy] [dinner; taxi])
  /\ JsObject.get "1700000000003"
       (calculateSummary [ann; bob; cy] [dinner; snack; taxi])
     = Some JsNumber.zero.
Proof.
  assert (W : Forall well_formed [dinner; snack; taxi]).
  { repeat constructor; simpl; intuition discriminate. }
  split.
  - assert (F : filter (referenced "1700000000001") [dinner; snack; taxi]
                = [dinner; taxi]) by (vm_compute; reflexivity).
    rewrite <- F.
    apply (calculateSummary_local [ann; bob; cy] [dinner; snack; taxi]
             "1700000000001" W).
    left. simpl. auto.
  - apply (calculateSummary_local [ann; bob; cy] [dinner; snack; taxi]
             "1700000000003" W).
    + left. simpl. auto.
    + simpl. auto.
    + reflexivity.
Defined.

(** The balance list shows a row for every participant id and for no other
    id; a row carries the name of the first participant of that id and the
    entry of the summary. *)
Theorem summaryRows_shown (ps : list Participant.t) (ts : list Transaction.t) :
  (forall r, In (Some r) (summaryRows ps ts) ->
     In (row_key r) (participant_ids ps)
     /\ JsObject.get (row_key r) (calculateSummary ps ts) = Some (row_amount r)
     /\ exists p, find (fun p => String.eqb (Participant.id p) (row_key r)) ps
                  = Some p
                  /\ row_name r = Participant.name p)
  /\ (forall k, In k (participant_ids ps) ->
        exists r, In (Some r) (summaryRows ps ts) /\ row_key r = k).
Proof.
  assert (D : NoDup (JsObject.keys (calculateSummary ps ts))).
  { apply NoDup_keys_summarize_all, FromEntriesFacts.NoDup_keys_fromEntries. }
  unfold summaryRows, JsObject.entries. split.
  - intros r I. apply in_map_iff in I. destruct I as ([k v] & E & I).
    destruct (find _ ps) as [p|] eqn:F; [|discriminate].
    injection E as <-. simpl.
    pose proof (find_some _ _ F) as [Ip Ep]. apply String.eqb_eq in Ep.
    split; [|split].
    + unfold participant_ids. apply in_map_iff. now exists p.
    + now apply get_of_entry.
    + exists p. auto.
  - intros k I.
    assert (K : In k (JsObject.keys (calculateSummary ps ts))).
    { unfold calculateSummary. apply In_keys_summarize_all. left.
      apply FromEntriesFacts.In_keys_fromEntries. now rewrite map_map. }
    destruct (entry_of_key k _ K) as [v Iv].
    destruct (find (fun p => String.eqb (Participant.id p) k) ps) as [p|] eqn:F.
    + exists (mkRow k (Participant.name p) v (nonnegative v)). split; [|reflexivity].
      apply in_map_iff. exists (k, v). rewrite F. auto.
    + exfalso. unfold participant_ids in I. apply in_map_iff in I.
      destruct I as (p & E & Ip).
      pose proof (find_none _ _ F p Ip) as X. simpl in X.
      rewrite E, String.eqb_refl in X. discriminate.
Qed.

Lemma summaryRows_shown_witness :
  exists r, In (Some r) (summaryRows [ann] [dinner])
            /\ row_key r = "1700000000001".
Proof.
  apply (summaryRows_shown [ann] [dinner]). simpl. auto.
Defined.

(** A ledger row whose payer is no participant, because none was chosen or
    because the payer was removed since, reads "Not specified". *)
Theorem payerLabel_unknown (id : string) (s : State) (t : Transaction.t) :
  (~ In (Transaction.payer t) (participant_ids (participants s)) ->
   payerLabel (participants s) t = "Not specified")
  /\ (Transaction.payer t = id ->
      payerLabel (participants (dispatch (removeParticipant id) s)) t
      = "Not specified").
Proof.
  assert (G : forall ps, ~ In (Transaction.payer t) (participant_ids ps) ->
                         payerLabel ps t = "Not specified").
  { intros ps N. unfold payerLabel.
    destruct (find _ ps) as [p|] eqn:F; [|reflexivity].
    exfalso. apply N. apply find_some in F. destruct F as [I E].
    apply String.eqb_eq in E. unfold participant_ids. apply in_map_iff.
    now exists p. }
  split; [apply G|].
  intros <-. apply G. unfold dispatch, removeParticipant. simpl.
  apply not_In_filtered_ids.
Qed.

Lemma payerLabel_unknown_witness :
  payerLabel (participants (dispatch (removeParticipant "1700000000001") idle_state))
    dinner
  = "Not specified".
Proof.
  apply (payerLabel_unknown "1700000000001" idle_state dinner). reflexivity.
Defined.

(** ** Sequences of ledger operations *)

Section RoundTrips.

Lemma same_id_same_transaction (ts : list Transaction.t) (a b : Transaction.t) :
  NoDup (transaction_ids ts) -> In a ts -> In b ts ->
  Transaction.id a = Transaction.id b -> a = b.
Proof.
  induction ts as [|t ts IH]; simpl; [tauto|]. intros D Ia Ib E.
  inversion D as [|? ? N D']; subst.
  assert (M : forall x, In x ts -> In (Transaction.id x) (transaction_ids ts)).
  { intros x I. apply in_map_iff. now exists x. }
  destruct Ia as [<-|Ia], Ib as [<-|Ib]; auto.
  - exfalso. apply N. rewrite E. auto.
  - exfalso. apply N. rewrite <- E. auto.
Qed.

Lemma map_replace_by_itself (ts : list Transaction.t) (t : Transaction.t) :
  NoDup (transaction_ids ts) -> In t ts ->
  map (fun t' => if String.eqb (Transaction.id t') (Transaction.id t)
                 then Transaction.with_id (Transaction.id t) t else t') ts
  = ts.
Proof.
  intros D I. rewrite <- (map_id ts) at 2. apply map_ext_in. intros a Ia.
  destruct (String.eqb_spec (Transaction.id a) (Transaction.id t)) as [E|E];
    [|reflexivity].
  rewrite with_id_same. symmetry. now apply (same_id_same_transaction ts).
Qed.

Lemma filter_ids (id : string) (ts : list Transaction.t) :
  transaction_ids (filter (fun t => negb (String.eqb (Transaction.id t) id)) ts)
  = filter (fun i => negb (String.eqb i id)) (transaction_ids ts).
Proof.
  induction ts as [|t ts IH]; simpl; [reflexivity|].
  destruct (String.eqb (Transaction.id t) id); simpl; congruence.
Qed.

Lemma filter_twice {A : Type} (f : A -> bool) (l : list A) :
  filter f (filter f l) = filter f l.
Proof.
  induction l as [|a l IH]; simpl; [reflexivity|].
  destruct (f a) eqn:E; simpl; rewrite ?E, IH; reflexivity.
Qed.

Lemma filter_swap {A : Type} (f g : A -> bool) (l : list A) :
  filter f (filter g l) = filter g (filter f l).
Proof.
  induction l as [|a l IH]; simpl; [reflexivity|].
  destruct (f a) eqn:E, (g a) eqn:G; simpl; rewrite ?E, ?G; simpl;
    rewrite IH; reflexivity.
Qed.

Lemma offered_In (ids : list string) (id : string) :
  offered ids id = true <-> In id ids.
Proof. apply FromEntriesFacts.existsb_eqb_In. Qed.

Lemma of_Z_not_empty (n : Z) : JsString.of_Z n <> "".
Proof.
  unfold JsString.of_Z. intros E.
  assert (N : Z.to_int n <> Decimal.Pos Decimal.Nil
              /\ Z.to_int n <> Decimal.Neg Decimal.Nil).
  { destruct n; simpl; split; try discriminate;
      intros X; injection X; apply DecimalPos.Unsigned.to_uint_nonnil. }
  destruct N as [A B]. pose proof (NilZero.isi _ A B) as I.
  rewrite E in I. discriminate.
Qed.

End RoundTrips.

(** Opening a transaction from its row and submitting it untouched leaves
    the ledger as it was, when ids are pairwise distinct: the draft holds
    the transaction, the button reads Update, and the submission writes the
    transaction over itself and ends the edit. *)
Theorem edit_then_submit (id : string) (now : Z) (s : State) :
  NoDup (transaction_ids (transactions s)) ->
  In id (transaction_ids (transactions s)) ->
  id <> "" ->
  exists s1,
    renderable (dispatch (editTransaction id) s) = Some s1
    /\ Transaction.id (currentTransaction s1) = id
    /\ In (currentTransaction s1) (transactions s)
    /\ submitLabel s1 = "Update Transaction"
    /\ transactions (dispatch (submitTransaction now) s1) = transactions s
    /\ editingTransactionId (dispatch (submitTransaction now) s1) = None.
Proof.
  intros D I N.
  destruct (find_present id _ I) as (t & b & a & F & E & L & _).
  assert (It : In t (transactions s)).
  { rewrite L. apply in_or_app. right. now left. }
  apply JsStringFacts.truthy_iff in N.
  exists (setEditingTransactionId (Some id) (setCurrentTransaction t s)).
  unfold renderable, dispatch, editTransaction, submitTransaction, submitLabel.
  simpl. rewrite F. simpl. rewrite N. simpl.
  repeat split; try assumption.
  subst id. now apply map_replace_by_itself.
Qed.

Lemma edit_then_submit_witness :
  exists s1,
    renderable (dispatch (editTransaction "1700000000007") idle_state) = Some s1
    /\ transactions (dispatch (submitTransaction 1700000000008) s1)
       = [dinner; taxi].
Proof.
  destruct (edit_then_submit "1700000000007" 1700000000008 idle_state)
    as (s1 & R & _ & _ & _ & T & _).
  - repeat constructor; simpl; intuition discriminate.
  - simpl. auto.
  - discriminate.
  - exists s1. split; [exact R | exact T].
Defined.

(** A transaction submitted under a new id and deleted again leaves the
    ledger as it was. *)
Theorem submit_then_delete (now : Z) (s : State) :
  editingTransactionId s = None ->
  ~ In (JsString.of_Z now) (transaction_ids (transactions s)) ->
  transactions
    (dispatch (deleteTransaction (JsString.of_Z now))
       (dispatch (submitTransaction now) s))
  = transactions s.
Proof.
  intros E N. unfold dispatch, submitTransaction, deleteTransaction.
  rewrite E. simpl. rewrite filter_app. simpl. rewrite String.eqb_refl. simpl.
  rewrite app_nil_r. now apply filter_absent.
Qed.

Lemma submit_then_delete_witness :
  transactions
    (dispatch (deleteTransaction "1700000000008")
       (dispatch (submitTransaction 1700000000008) idle_state))
  = [dinner; taxi].
Proof.
  apply (submit_then_delete 1700000000008 idle_state).
  - reflexivity.
  - simpl. intuition discriminate.
Defined.

(** After a deletion no transaction bears the id; deleting again changes
    nothing, two deletions can be swapped, and distinct ids stay
    distinct. *)
Theorem deleteTransaction_algebra (id id' : string) (s : State) :
  let del i := dispatch (deleteTransaction i) in
  ~ In id (transaction_ids (transactions (del id s)))
  /\ del id (del id s) = del id s
  /\ del id (del id' s) = del id' (del id s)
  /\ (NoDup (transaction_ids (transactions s)) ->
      NoDup (transaction_ids (transactions (del id s)))).
Proof.
  unfold dispatch, deleteTransaction. simpl. split; [|split; [|split]].
  - unfold transaction_ids. rewrite in_map_iff. intros (t & E & I).
    apply filter_In in I. destruct I as [_ I]. subst id.
    now rewrite String.eqb_refl in I.
  - unfold setTransactions. simpl. now rewrite filter_twice.
  - unfold setTransactions. simpl. now rewrite filter_swap.
  - apply NoDup_map_filter.
Qed.

Lemma deleteTransaction_algebra_witness :
  NoDup
    (transaction_ids
       (transactions (dispatch (deleteTransaction "1700000000005") idle_state))).
Proof.
  apply (deleteTransaction_algebra "1700000000005" "" idle_state).
  repeat constructor; simpl; intuition discriminate.
Defined.

(** After a submission the button reads Submit again, in either mode. *)
Theorem submitLabel_after_submit (now : Z) (s : State) :
  submitLabel (dispatch (submitTransaction now) s) = "Submit Transaction".
Proof.
  unfold submitLabel, dispatch, submitTransaction.
  destruct (editingTransactionId s) as [e|] eqn:E; simpl; [|now rewrite E].
  destruct (JsString.truthy e) eqn:T; simpl; [reflexivity|].
  now rewrite E, T.
Qed.

(** ** States that the view can reach *)

Section Reachable.

Lemma perform_stamped (e : Event) (s s' : State) :
  stamped s -> perform e s = Some s' -> stamped s'.
Proof.
  intros [L T] P. unfold stamped.
  destruct e as [text|now|id|field value|pid value| |now|id|id]; simpl in P.
  - injection P as <-. auto.
  - injection P as <-. unfold dispatch, addParticipant.
    destruct (JsString.truthy _); auto.
  - destruct (offered _ id); [|discriminate]. injection P as <-. auto.
  - destruct field; [| |destruct (offered _ value); [|discriminate]];
      injection P as <-; auto.
  - destruct (_ && _); [|discriminate]. injection P as <-. auto.
  - injection P as <-. auto.
  - injection P as <-. unfold dispatch, submitTransaction.
    destruct (editingTransactionId s) as [i|] eqn:E;
      [destruct (JsString.truthy _)|]; simpl.
    + split; [|discriminate]. now rewrite ids_map_replace.
    + split; [|rewrite E; auto]. unfold transaction_ids. rewrite map_app.
      apply Forall_app. split; [exact L|]. repeat constructor. now exists now.
    + split; [|rewrite E; auto]. unfold transaction_ids. rewrite map_app.
      apply Forall_app. split; [exact L|]. repeat constructor. now exists now.
  - destruct (offered _ id) eqn:O; [|discriminate].
    apply offered_In in O.
    unfold renderable, dispatch, editTransaction in P. simpl in P.
    destruct (find _ _); [|discriminate]. injection P as <-. simpl.
    split; [exact L|]. intros e [= <-].
    rewrite Forall_forall in L. auto.
  - destruct (offered _ id); [|discriminate]. injection P as <-.
    unfold dispatch, deleteTransaction. simpl. split; [|exact T].
    rewrite filter_ids. apply Forall_filter_keep, L.
Qed.

Lemma run_stamped (es : list Event) (s s' : State) :
  stamped s -> run es s = Some s' -> stamped s'.
Proof.
  revert s. induction es as [|e es IH]; simpl; intros s I R.
  - now injection R as <-.
  - destruct (perform e s) as [s1|] eqn:P; [|discriminate].
    exact (IH s1 (perform_stamped e s s1 I P) R).
Qed.

Lemma perform_ids (e : Event) (s s' : State) :
  perform e s = Some s' ->
  transaction_ids (transactions s') = transaction_ids (transactions s)
  \/ (exists id, transaction_ids (transactions s')
                 = filter (fun i => negb (String.eqb i id))
                     (transaction_ids (transactions s)))
  \/ (exists now, e = Submit now
                  /\ transaction_ids (transactions s')
                     = transaction_ids (transactions s) ++ [JsString.of_Z now]).
Proof.
  intros P.
  destruct e as [text|now|id|field value|pid value| |now|id|id]; simpl in P.
  - injection P as <-. auto.
  - injection P as <-. left. unfold dispatch, addParticipant.
    now destruct (JsString.truthy _).
  - destruct (offered _ id); [|discriminate]. injection P as <-. auto.
  - destruct field; [| |destruct (offered _ value); [|discriminate]];
      injection P as <-; auto.
  - destruct (_ && _); [|discriminate]. injection P as <-. auto.
  - injection P as <-. auto.
  - injection P as <-. unfold dispatch, submitTransaction.
    destruct (editingTransactionId s) as [i|];
      [destruct (JsString.truthy _)|]; simpl.
    + left. apply ids_map_replace.
    + right. right. exists now. split; [reflexivity|].
      unfold transaction_ids. now rewrite map_app.
    + right. right. exists now. split; [reflexivity|].
      unfold transaction_ids. now rewrite map_app.
  - destruct (offered _ id); [|discriminate].
    unfold renderable, dispatch, editTransaction in P. simpl in P.
    destruct (find _ _); [|discriminate]. injection P as <-. auto.
  - destruct (offered _ id); [|discriminate]. injection P as <-.
    right. left. exists id. apply filter_ids.
Qed.

Lemma run_distinct (es : list Event) (s s' : State) :
  NoDup (transaction_ids (transactions s)) ->
  (forall i, In i (transaction_ids (transactions s)) ->
     exists n, i = JsString.of_Z n /\ ~ In n (submit_times es)) ->
  NoDup (submit_times es) ->
  run es s = Some s' ->
  NoDup (transaction_ids (transactions s')).
Proof.
  revert s. induction es as [|e es IH]; simpl; intros s D O C R.
  - now injection R as <-.
  - destruct (perform e s) as [s1|] eqn:P; [|discriminate].
    assert (C' : NoDup (submit_times es)).
    { destruct e; auto. now inversion C. }
    assert (O' : forall i, In i (transaction_ids (transactions s)) ->
                   exists n, i = JsString.of_Z n /\ ~ In n (submit_times es)).
    { intros i I. destruct (O i I) as (n & E & N). exists n. split; [exact E|].
      destruct e; auto. simpl in N. tauto. }
    apply (IH s1); [| |exact C'|exact R].
    + destruct (perform_ids e s s1 P) as [E|[(id & E)|(now & -> & E)]];
        rewrite E.
      * exact D.
      * now apply NoDup_filter.
      * apply NoDup_app; [exact D | repeat constructor; auto |].
        intros i I [X|[]]. subst i. destruct (O _ I) as (n & En & N).
        apply JsStringFacts.of_Z_inj in En. subst n. apply N. now left.
    + intros i. destruct (perform_ids e s s1 P) as [E|[(id & E)|(now & -> & E)]];
        rewrite E.
      * apply O'.
      * intros I. apply filter_In in I. apply O'. tauto.
      * intros I. apply in_app_or in I. destruct I as [I|[<-|[]]]; [now apply O'|].
        exists now. split; [reflexivity|]. now inversion C.
Qed.

End Reachable.

(** In every state reached from the first render through the controls of
    the view, each id of the ledger is the numeral of a clock reading and
    so is the edit target when there is one; in particular the edit target
    is never the empty string, and an edit always finds its transaction. *)
Theorem reachable_ids (stored : list Participant.t) (es : list Event)
  (s : State) :
  run es (initialState stored) = Some s ->
  Forall timestamp (transaction_ids (transactions s))
  /\ (forall e, editingTransactionId s = Some e ->
        timestamp e /\ JsString.truthy e = true)
  /\ (forall id, In id (transaction_ids (transactions s)) ->
        exists s', perform (Edit id) s = Some s'
                   /\ Transaction.id (currentTransaction s') = id
                   /\ submitLabel s' = "Update Transaction").
Proof.
  intros R.
  assert (I : Forall timestamp (transaction_ids (transactions s))
              /\ (forall e, editingTransactionId s = Some e -> timestamp e)).
  { apply (run_stamped es (initialState stored)); [|exact R].
    split; [constructor | discriminate]. }
  destruct I as [L T]. split; [exact L|]. split.
  - intros e E. split; [now apply T|].
    destruct (T e E) as (n & ->). apply JsStringFacts.truthy_iff.
    apply of_Z_not_empty.
  - intros id I. simpl.
    assert (O := proj2 (offered_In _ _) I). rewrite O.
    destruct (find_present id _ I) as (t & b & a & F & E & _).
    exists (setEditingTransactionId (Some id) (setCurrentTransaction t s)).
    unfold renderable, dispatch, editTransaction, submitLabel. simpl.
    rewrite F. simpl. split; [reflexivity|]. split; [exact E|].
    rewrite Forall_forall in L. destruct (L id I) as (n & ->).
    pose proof (of_Z_not_empty n) as N. apply JsStringFacts.truthy_iff in N.
    now rewrite N.
Qed.

Lemma reachable_ids_witness :
  exists s,
    run [Submit 1700000000005; Submit 1700000000007; Edit "1700000000007"]
      (initialState [ann; bob]) = Some s
    /\ Forall timestamp (transaction_ids (transactions s)).
Proof.
  eexists. split; [reflexivity|].
  eapply (reachable_ids [ann; bob]
            [Submit 1700000000005; Submit 1700000000007; Edit "1700000000007"]).
  reflexivity.
Defined.

(** When no two submissions happen at the same clock reading, the ids of the
    ledger are pairwise distinct in every state the view can reach. *)
Theorem reachable_distinct_ids (stored : list Participant.t) (es : list Event)
  (s : State) :
  NoDup (submit_times es) ->
  run es (initialState stored) = Some s ->
  NoDup (transaction_ids (transactions s)).
Proof.
  intros C R. apply (run_distinct es (initialState stored) s); auto.
  - constructor.
  - intros i [].
Qed.

Lemma reachable_distinct_ids_witness :
  exists s,
    run [Submit 1700000000005; Submit 1700000000007; Delete "1700000000005"]
      (initialState [ann; bob]) = Some s
    /\ NoDup (transaction_ids (transactions s)).
Proof.
  eexists. split; [reflexivity|].
  eapply (reachable_distinct_ids [ann; bob]
            [Submit 1700000000005; Submit 1700000000007;
             Delete "1700000000005"]).
  - repeat constructor; simpl; intuition lia.
  - reflexivity.
Defined.

Section WellFormed.

Lemma well_formed_recalculateSplitBill ps amount d :
  well_formed
    (Transaction.with_contributions (recalculateSplitBill ps amount) d).
Proof.
  unfold well_formed, recalculateSplitBill. simpl.
  destruct (List.length ps); [constructor|].
  apply FromEntriesFacts.NoDup_keys_fromEntries.
Qed.

Lemma well_formed_set k v d :
  well_formed d ->
  well_formed
    (Transaction.with_contributions
       (JsObject.set k v (Transaction.contributions d)) d).
Proof. apply JsObjectFacts.NoDup_keys_set. Qed.

Lemma well_formed_remove k d :
  well_formed d ->
  well_formed
    (Transaction.with_contributions
       (JsObject.remove k (Transaction.contributions d)) d).
Proof.
  unfold well_formed, JsObject.remove, JsObject.keys. simpl.
  apply NoDup_map_filter.
Qed.

Lemma perform_well_formed (e : Event) (s s' : State) :
  Forall well_formed (transactions s) /\ well_formed (currentTransaction s) ->
  perform e s = Some s' ->
  Forall well_formed (transactions s') /\ well_formed (currentTransaction s').
Proof.
  intros [L D] P.
  destruct e as [text|now|id|field value|pid value| |now|id|id]; simpl in P.
  - injection P as <-. auto.
  - injection P as <-. unfold dispatch, addParticipant.
    destruct (JsString.truthy _); [|auto]. simpl. split; [exact L|].
    now apply well_formed_set.
  - destruct (offered _ id); [|discriminate]. injection P as <-.
    unfold dispatch, removeParticipant. simpl. split; [exact L|].
    destruct (Transaction.isSplitBill _).
    + apply (well_formed_recalculateSplitBill _ _
               (Transaction.with_contributions _ (currentTransaction s))).
    + now apply well_formed_remove.
  - assert (G : forall f, Forall well_formed
                    (transactions (dispatch (updateCurrentTransaction f value) s))
                  /\ well_formed
                       (currentTransaction
                          (dispatch (updateCurrentTransaction f value) s))).
    { intros f. unfold dispatch, updateCurrentTransaction. simpl.
      split; [exact L|].
      destruct f; try exact D.
      destruct (Transaction.isSplitBill _); [|exact D].
      apply (well_formed_recalculateSplitBill _ _ (Transaction.mk _ _ _ _ _ _)). }
    destruct field; [| |destruct (offered _ value); [|discriminate]];
      injection P as <-; apply G.
  - destruct (_ && _); [|discriminate]. injection P as <-.
    unfold dispatch, updateContribution. simpl. split; [exact L|].
    now apply well_formed_set.
  - injection P as <-. unfold dispatch, toggleSplitBill. simpl.
    split; [exact L|]. unfold well_formed. simpl.
    destruct (Transaction.isSplitBill _); simpl; [exact D|].
    apply (well_formed_recalculateSplitBill _ _ (currentTransaction s)).
  - injection P as <-. split.
    + unfold dispatch, submitTransaction.
      destruct (editingTransactionId s) as [i|];
        [destruct (JsString.truthy _)|]; simpl.
      * apply Forall_forall. intros t I. apply in_map_iff in I.
        destruct I as (t0 & E & I). rewrite Forall_forall in L.
        destruct (String.eqb _ _); subst t; [exact D | auto].
      * apply Forall_app. split; [exact L|]. repeat constructor. exact D.
      * apply Forall_app. split; [exact L|]. repeat constructor. exact D.
    + change (currentTransaction (dispatch (submitTransaction now) s))
        with (emptyTransaction (participants s)).
      apply FromEntriesFacts.NoDup_keys_fromEntries.
  - destruct (offered _ id); [|discriminate].
    unfold renderable, dispatch, editTransaction in P. simpl in P.
    destruct (find _ _) as [t|] eqn:F; [|discriminate]. injection P as <-.
    simpl. split; [exact L|]. apply find_some in F.
    rewrite Forall_forall in L. apply L. tauto.
  - destruct (offered _ id); [|discriminate]. injection P as <-.
    unfold dispatch, deleteTransaction. simpl.
    split; [apply Forall_filter_keep, L | exact D].
Qed.

End WellFormed.

(** In every state the view can reach, the contributions of the draft and of
    each transaction of the ledger hold every key once; so the summary
    theorems apply to all of them. *)
Theorem reachable_well_formed (stored : list Participant.t) (es : list Event)
  (s : State) :
  run es (initialState stored) = Some s ->
  Forall well_formed (transactions s) /\ well_formed (currentTransaction s).
Proof.
  assert (G : forall s0,
             Forall well_formed (transactions s0)
             /\ well_formed (currentTransaction s0) ->
             run es s0 = Some s ->
             Forall well_formed (transactions s)
             /\ well_formed (currentTransaction s)).
  { induction es as [|e es IH]; simpl; intros s0 I R.
    - now injection R as <-.
    - destruct (perform e s0) as [s1|] eqn:P; [|discriminate].
      exact (IH s1 (perform_well_formed e s0 s1 I P) R). }
  apply G. split; constructor.
Qed.

Lemma reachable_well_formed_witness :
  exists s,
    run [ToggleSplitBill; UpdateField Field_amount "90"; Submit 1700000000005]
      (initialState [ann; bob]) = Some s
    /\ Forall well_formed (transactions s).
Proof.
  eexists. split; [reflexivity|].
  eapply (reachable_well_formed [ann; bob]
            [ToggleSplitBill; UpdateField Field_amount "90";
             Submit 1700000000005]).
  reflexivity.
Defined.
